(** * NeMo [setup.py]: dependency loading, extras groups, style command

    A shallow embedding of the executable parts of [setup.py]:
    the long-description fallback (lines 53-68), the requirement-file
    loader [req_file] (lines 74-77), the assembly of [extras_require]
    (lines 80-97) and the [StyleCommand] class (lines 104-155).

    Python text is modelled by [string]; a character is a code point
    below 256.  Everything the script does to its surroundings (reading
    files, allocating list objects, logging, spawning the two style
    tools) is threaded through an explicit [world]. *)

From Stdlib Require Import ZArith String Ascii List DecimalString Lia.
From stdpp Require Import base option list gmap strings.

Local Open Scope string_scope.
Local Open Scope list_scope.

(** ** Python [str] operations used by the script *)

Module Str.

(** [str.isspace] on one character: TAB..CR, FS..US, space, NEL, NBSP. *)
Definition isspace (c : ascii) : bool :=
  let n := N_of_ascii c in
  ((9 <=? n) && (n <=? 13) || (28 <=? n) && (n <=? 32)
   || (n =? 133) || (n =? 160))%N.

Fixpoint lstrip (s : string) : string :=
  match s with
  | EmptyString => EmptyString
  | String c r => if isspace c then lstrip r else s
  end.

Fixpoint rstrip (s : string) : string :=
  match s with
  | EmptyString => EmptyString
  | String c r =>
      match rstrip r with
      | EmptyString => if isspace c then EmptyString else String c EmptyString
      | r' => String c r'
      end
  end.

(** [s.strip()] *)
Definition strip (s : string) : string := rstrip (lstrip s).

(** Truth value of a [str]: non-empty. *)
Definition nonempty (s : string) : bool :=
  match s with EmptyString => false | String _ _ => true end.

(** [s.startswith(p)] *)
Fixpoint startswith (s p : string) : bool :=
  match p, s with
  | EmptyString, _ => true
  | String _ _, EmptyString => false
  | String a p', String b s' => Ascii.eqb a b && startswith s' p'
  end.

(** [s.endswith(p)] for a one-character [p]. *)
Fixpoint endswith_char (s : string) (c : ascii) : bool :=
  match s with
  | EmptyString => false
  | String a EmptyString => Ascii.eqb a c
  | String _ r => endswith_char r c
  end.

(** [s.split()]: maximal runs of non-whitespace characters.  [cur] holds
    the run being read, in reverse. *)
Fixpoint split_aux (cur : list ascii) (s : string) : list string :=
  let flush := match cur with
               | [] => []
               | _ => [string_of_list_ascii (rev cur)]
               end in
  match s with
  | EmptyString => flush
  | String c r => if isspace c then flush ++ split_aux [] r
                  else split_aux (c :: cur) r
  end.

Definition split (s : string) : list string := split_aux [] s.

(** [sep.join(items)] *)
Fixpoint join (sep : string) (items : list string) : string :=
  match items with
  | [] => ""
  | [x] => x
  | x :: rest => x ++ sep ++ join sep rest
  end.

(** [str(n)] for a non-negative integer, as an f-string field prints it. *)
Definition of_N (n : N) : string := NilEmpty.string_of_uint (N.to_uint n).

Definition LF : ascii := ascii_of_nat 10.
Definition CR : ascii := ascii_of_nat 13.
Definition ESC : ascii := ascii_of_nat 27.

(** Text-mode decoding of line ends ([newline=None]): CR LF and a lone
    CR both read as LF. *)
Fixpoint universal_newlines (s : string) : string :=
  match s with
  | EmptyString => EmptyString
  | String c r =>
      if Ascii.eqb c CR then
        match r with
        | String d r' =>
            if Ascii.eqb d LF then String LF (universal_newlines r')
            else String LF (universal_newlines r)
        | EmptyString => String LF EmptyString
        end
      else String c (universal_newlines r)
  end.

(** Cut a text after every LF, keeping the LF with its line; a last line
    without LF is kept as it is.  [cur] is the current line, reversed. *)
Fixpoint cut_lines (cur : list ascii) (s : string) : list string :=
  match s with
  | EmptyString =>
      match cur with
      | [] => []
      | _ => [string_of_list_ascii (rev cur)]
      end
  | String c r =>
      if Ascii.eqb c LF
      then string_of_list_ascii (rev (c :: cur)) :: cut_lines [] r
      else cut_lines (c :: cur) r
  end.

(** [f.readlines()] on a file opened in text mode. *)
Definition readlines (raw : string) : list string :=
  cut_lines [] (universal_newlines raw).

End Str.

(** ** [os.path] *)

(** [os.path.join(a, b)] on a POSIX system. *)
Definition os_path_join (a b : string) : string :=
  if Str.startswith b "/" then b
  else if negb (Str.nonempty a) || Str.endswith_char a "/" then a ++ b
  else a ++ "/" ++ b.


(** ** The world the script runs in *)

(** What a path names.  A [File] carries its text as decoded from UTF-8,
    before line ends are translated; [Undecodable] is a file whose bytes
    are not valid UTF-8, which opens but cannot be read as text. *)
Inductive node : Type :=
  | File (raw : string)
  | Undecodable
  | Directory
  | Unreadable.

(** The [OSError] subclasses that opening a file or spawning a program
    raises. *)
Inductive os_error : Type :=
  | FileNotFoundError
  | IsADirectoryError
  | PermissionError.

Inductive exn : Type :=
  | OSError (kind : os_error) (path : string)
  | UnicodeDecodeError
  | KeyError (key : string)
  | SystemExit (code : Z).

Inductive level : Type := INFO | ERROR.

(** List objects live in a heap and are named by their position in it;
    a new object goes to the end, and no object is ever freed. *)
Definition loc : Type := nat.

Record world : Type := World {
  files : gmap string node;          (* the file system, by path *)
  heap : list (list string);         (* the list objects allocated so far *)
  log : list (level * string);       (* records emitted by [logger] *)
  spawned : list (list string);      (* argument vectors given to subprocess.call *)
}.

Inductive outcome (A : Type) : Type :=
  | Returned (a : A)
  | Raised (e : exn).
Arguments Returned {A} a.
Arguments Raised {A} e.

(** A statement of the script: it runs in a world, returns or raises,
    and leaves a world. *)
Definition M (A : Type) : Type := world -> outcome A * world.

Definition ret {A : Type} (a : A) : M A := fun w => (Returned a, w).

Definition bind {A B : Type} (m : M A) (k : A -> M B) : M B := fun w =>
  match m w with
  | (Returned a, w') => k a w'
  | (Raised e, w') => (Raised e, w')
  end.

Notation "x <- m ;; k" := (bind m (fun x => k))
  (at level 100, m at next level, right associativity).
Notation "m ;; k" := (bind m (fun _ => k))
  (at level 100, right associativity).

Definition raise {A : Type} (e : exn) : M A := fun w => (Raised e, w).

(** [open(path).read()] up to line-end translation: the text of the file,
    or the [OSError] that [open] raises, or the [UnicodeDecodeError] that
    reading raises when the bytes are not UTF-8. *)
Definition open_read (path : string) : M string := fun w =>
  match files w !! path with
  | Some (File raw) => (Returned raw, w)
  | Some Undecodable => (Raised UnicodeDecodeError, w)
  | Some Directory => (Raised (OSError IsADirectoryError path), w)
  | Some Unreadable => (Raised (OSError PermissionError path), w)
  | None => (Raised (OSError FileNotFoundError path), w)
  end.

(** [os.path.exists(path)] *)
Definition os_path_exists (path : string) : M bool := fun w =>
  (Returned (bool_decide (is_Some (files w !! path))), w).

(** Building a new list object with the given items. *)
Definition new_list (items : list string) : M loc := fun w =>
  (Returned (length (heap w)),
   World (files w) (heap w ++ [items]) (log w) (spawned w)).

(** The items of a list object. *)
Definition items_of (l : loc) : M (list string) := fun w =>
  (Returned (default [] (heap w !! l)), w).

(** [logger.info(msg)] and [logger.error(msg)] *)
Definition logger_emit (lv : level) (msg : string) : M unit := fun w =>
  (Returned tt, World (files w) (heap w) (log w ++ [(lv, msg)]) (spawned w)).

(** ** Dependency loading (lines 74-77) *)

(** The condition of the comprehension on line 77. *)
Definition keeps (x : string) : bool :=
  Str.nonempty (Str.strip x) && negb (Str.startswith x "#").

(** The comprehension on line 77, over the lines read on line 76. *)
Definition req_lines (content : list string) : list string :=
  map Str.strip (List.filter keeps content).

Definition req_file (filename : string) (folder : string) : M loc :=
  raw <- open_read (os_path_join folder filename) ;;
  new_list (req_lines (Str.readlines raw)).

(** The default value of [folder]. *)
Definition requirements : string := "requirements".

(** The loader as the specification words it: the lines that are not
    blank and are not comments, a comment being a line whose trimmed form
    begins with '#', each trimmed, in file order. *)
Definition req_lines_spec (content : list string) : list string :=
  map Str.strip
    (List.filter
       (fun x => Str.nonempty (Str.strip x)
                 && negb (Str.startswith (Str.strip x) "#"))
       content).

(** ** Long description (lines 53-68)

    [here] is [os.path.abspath(os.path.dirname(__file__))] and [homepage]
    is [__homepage__], which comes from [nemo/package_info.py].  The
    result is the pair of [long_description] and
    [long_description_content_type].  [codecs.open] reads without
    translating line ends. *)
Definition long_description (here homepage : string) : M (string * string) :=
  md <- os_path_exists "nemo/README.md" ;;
  if md then
    raw <- open_read "nemo/README.md" ;;
    ret (Str.universal_newlines raw, "text/markdown")
  else
    rst <- os_path_exists "README.rst" ;;
    if rst then
      raw <- open_read (os_path_join here "README.rst") ;;
      ret (raw, "text/x-rst")
    else ret (("See " ++ homepage)%string, "text/plain").

(** ** Extras groups (lines 80-97) *)

(** A [dict] from group name to list object, in insertion order. *)
Definition pydict : Type := list (string * loc).

Fixpoint dict_lookup (k : string) (d : pydict) : option loc :=
  match d with
  | [] => None
  | (k', v) :: r => if String.eqb k' k then Some v else dict_lookup k r
  end.

(** [d[k]] *)
Definition dict_getitem (k : string) (d : pydict) : M loc :=
  match dict_lookup k d with
  | Some l => ret l
  | None => raise (KeyError k)
  end.

(** [d[k] = v]: a key already present keeps its place, a new one goes last. *)
Fixpoint dict_setitem (k : string) (v : loc) (d : pydict) : pydict :=
  match d with
  | [] => [(k, v)]
  | (k', v') :: r =>
      if String.eqb k' k then (k', v) :: r else (k', v') :: dict_setitem k v r
  end.

(** [d.values()] *)
Definition dict_values (d : pydict) : list loc := map snd d.

(** The items that [chain.from_iterable] yields over the given list
    objects, taken in order. *)
Fixpoint chain_items (ls : list loc) : M (list string) :=
  match ls with
  | [] => ret []
  | l :: r =>
      xs <- items_of l ;;
      ys <- chain_items r ;;
      ret (xs ++ ys)
  end.

(** [list(chain(...))]: a new list object with the chained items. *)
Definition list_of_chain (ls : list loc) : M loc :=
  xs <- chain_items ls ;;
  new_list xs.

(** Lines 82-89. *)
Definition load_extras : M pydict :=
  test <- req_file "requirements_test.txt" requirements ;;
  asr <- req_file "requirements_asr.txt" requirements ;;
  cv <- req_file "requirements_cv.txt" requirements ;;
  nlp <- req_file "requirements_nlp.txt" requirements ;;
  tts <- req_file "requirements_tts.txt" requirements ;;
  text_processing <- req_file "requirements_text_processing.txt" requirements ;;
  ret [("test", test); ("asr", asr); ("cv", cv); ("nlp", nlp);
        ("tts", tts); ("text_processing", text_processing)].

(** Line 92. *)
Definition flatten_all (extras : pydict) : M pydict :=
  all <- list_of_chain (dict_values extras) ;;
  ret (dict_setitem "all" all extras).

(** Line 95. *)
Definition link_tts (extras : pydict) : M pydict :=
  tts <- dict_getitem "tts" extras ;;
  asr <- dict_getitem "asr" extras ;;
  linked <- list_of_chain [tts; asr] ;;
  ret (dict_setitem "tts" linked extras).

Record dependencies : Type := Dependencies {
  install_requires : loc;
  extras_require : pydict;
  tests_requirements : loc;
}.

(** Lines 80-97 as a whole. *)
Definition dependency_loading : M dependencies :=
  install <- req_file "requirements.txt" requirements ;;
  extras <- load_extras ;;
  extras <- flatten_all extras ;;
  extras <- link_tts extras ;;
  tests <- dict_getitem "test" extras ;;
  ret (Dependencies install extras tests).

(** The requirement strings of group [k] in dict [d], read in world [w]. *)
Definition group (d : pydict) (w : world) (k : string) : option (list string) :=
  match dict_lookup k d with
  | Some l => heap w !! l
  | None => None
  end.

(** ** Code style checkers (lines 104-155) *)

(** The values an option of a distutils command can hold. *)
Inductive pyval : Type :=
  | PyNone
  | PyBool (b : bool)
  | PyInt (z : Z)
  | PyStr (s : string).

(** [bool(v)] *)
Definition truthy (v : pyval) : bool :=
  match v with
  | PyNone => false
  | PyBool b => b
  | PyInt z => negb (z =? 0)%Z
  | PyStr s => Str.nonempty s
  end.

(** The two attributes of a [StyleCommand] object; [fix_] stands for
    [self.fix]. *)
Record StyleCommand : Type := mkStyleCommand {
  scope : string;
  fix_ : pyval;
}.

Definition __LINE_WIDTH : N := 119.

Definition __ISORT_BASE : string :=
  "isort "
  ++ "--multi-line=3 --trailing-comma --force-grid-wrap=0 "
  ++ "--use-parentheses --line-width=" ++ Str.of_N __LINE_WIDTH ++ " -rc -ws".

Definition __BLACK_BASE : string :=
  "black --skip-string-normalization --line-length=" ++ Str.of_N __LINE_WIDTH.

(** How a spawn ends: the child's exit code, or the [OSError] that kept it
    from starting. *)
Inductive spawn : Type :=
  | Exited (code : Z)
  | NotStarted (e : os_error).

(** Lines 119-122: the argument vector. *)
Definition checker_command (base_command : list string) (scope : string)
    (check : bool) : list string :=
  let command := base_command in
  let command := command ++ [scope] in
  if check then command ++ ["--check"; "--diff"] else command.

Definition PASS : string :=
  String Str.ESC "[32mPASS" ++ String Str.ESC "[0m".

Definition FAIL : string :=
  String Str.ESC "[31mFAIL" ++ String Str.ESC "[0m".

Definition initialize_options (self : StyleCommand) : StyleCommand :=
  {| scope := "."; fix_ := PyStr "" |}.

Definition finalize_options (self : StyleCommand) : StyleCommand := self.

Section Style.

(** What running a program does: given the argument vector and the file
    system, how the spawn ends and the file system it leaves. *)
Variable exec : list string -> gmap string node -> spawn * gmap string node.

(** [subprocess.call(command)]: the attempt is recorded in [spawned]
    whether or not the program could be started. *)
Definition subprocess_call (command : list string) : M Z := fun w =>
  let '(r, fs) := exec command (files w) in
  let w' := World fs (heap w) (log w) (spawned w ++ [command]) in
  match r with
  | Exited code => (Returned code, w')
  | NotStarted e => (Raised (OSError e (hd "" command)), w')
  end.

Definition __call_checker (base_command : list string) (scope : string)
    (check : bool) : M Z :=
  let command := checker_command base_command scope check in
  logger_emit INFO ("Running command: " ++ Str.join " " command) ;;
  subprocess_call command.

Definition _isort (scope : string) (check : bool) : M Z :=
  __call_checker (Str.split __ISORT_BASE) scope check.

Definition _black (scope : string) (check : bool) : M Z :=
  __call_checker (Str.split __BLACK_BASE) scope check.

Definition _pass : M unit := logger_emit INFO PASS.

Definition _fail : M unit := logger_emit ERROR FAIL.

Definition run (self : StyleCommand) : M unit :=
  let scope := scope self in
  let check := negb (truthy (fix_ self)) in
  isort_return <- _isort scope check ;;
  black_return <- _black scope check ;;
  if (isort_return =? 0)%Z && (black_return =? 0)%Z then _pass
  else
    _fail ;;
    raise (SystemExit (if negb (isort_return =? 0)%Z then isort_return
                       else black_return)).

End Style.

(** The argument vectors that [run] hands to [_isort] and [_black]. *)
Definition isort_command (self : StyleCommand) : list string :=
  checker_command (Str.split __ISORT_BASE) (scope self) (negb (truthy (fix_ self))).

Definition black_command (self : StyleCommand) : list string :=
  checker_command (Str.split __BLACK_BASE) (scope self) (negb (truthy (fix_ self))).

(** The record that [__call_checker] logs before it spawns [command]. *)
Definition announced (command : list string) : level * string :=
  (INFO, ("Running command: " ++ Str.join " " command)%string).

(** ** Sample worlds *)

(** A world with the given files and nothing else. *)
Definition disk (fs : list (string * node)) : world :=
  World (list_to_map fs) [] [] [].

(** The text of a file with the given lines, each ended by LF. *)
Fixpoint text_of (lines : list string) : string :=
  match lines with
  | [] => ""
  | l :: r => l ++ String Str.LF (text_of r)
  end.

(** A requirements file whose first line is an indented comment. *)
Definition indented_comment : world :=
  disk [("requirements/requirements.txt",
         File (text_of ["  # pinned"; "numpy"]))].

(** A source tree with the six extras requirement files. *)
Definition six_groups : world :=
  disk [("requirements/requirements_test.txt", File (text_of ["pytest"; "# lint"; "black"]));
        ("requirements/requirements_asr.txt", File (text_of ["numpy"; "librosa"]));
        ("requirements/requirements_cv.txt", File (text_of ["pillow"]));
        ("requirements/requirements_nlp.txt", File (text_of ["numpy"; ""; "sentencepiece"]));
        ("requirements/requirements_tts.txt", File (text_of ["numba"; "librosa"]));
        ("requirements/requirements_text_processing.txt", File (text_of ["inflect"]))].

(** A dict and a heap as they stand before line 95. *)
Definition before_link : pydict * world :=
  ([("asr", 0); ("tts", 1); ("all", 2)],
   World ∅ [["numpy"; "librosa"]; ["numba"; "librosa"];
            ["numpy"; "librosa"; "numba"; "librosa"]] [] []).

(** Two installed tools that leave the files alone and exit with the
    given codes. *)
Definition tools (isort_code black_code : Z) (command : list string)
    (fs : gmap string node) : spawn * gmap string node :=
  (match command with
   | "isort" :: _ => Exited isort_code
   | _ => Exited black_code
   end, fs).

(** A system on which isort is not installed. *)
Definition no_isort (command : list string) (fs : gmap string node)
    : spawn * gmap string node :=
  (match command with
   | "isort" :: _ => NotStarted FileNotFoundError
   | _ => Exited 0
   end, fs).

(** Source trees for the three cases of the long description. *)
Definition with_md : world :=
  disk [("nemo/README.md", File "NeMo toolkit"); ("README.rst", File "NeMo")].

Definition with_rst : world :=
  disk [("README.rst", File "NeMo"); ("/src/README.rst", File "NeMo")].

Definition bare : world := disk [].

(** A command object as distutils creates it, before any option is set. *)
Definition blank : StyleCommand := mkStyleCommand "" PyNone.

(** ** Shapes of text used to state properties *)

(** Every character of [s] satisfies [p]. *)
Fixpoint all_chars (p : ascii -> bool) (s : string) : bool :=
  match s with
  | EmptyString => true
  | String c r => p c && all_chars p r
  end.


(** A non-empty string without white space: one argument of a command
    line. *)
Definition word (s : string) : bool :=
  Str.nonempty s && all_chars (fun c => negb (Str.isspace c)) s.

(** How a line of a text file ends: Unix or Windows convention. *)
Inductive line_end : Type := EndLF | EndCRLF.

Definition ending (e : line_end) : string :=
  match e with
  | EndLF => String Str.LF ""
  | EndCRLF => String Str.CR (String Str.LF "")
  end.

(** The text of a file: its terminated lines, each with its own ending,
    and then [last], the characters after the final line end (empty when
    the file ends with a line end). *)
Fixpoint text_ended (lines : list (string * line_end)) (last : string) : string :=
  match lines with
  | [] => last
  | (l, e) :: r => l ++ ending e ++ text_ended r last
  end.

(** The seven files that lines 80-89 read, in the order they are read. *)
Definition requirement_paths : list string :=
  ["requirements/requirements.txt";
   "requirements/requirements_test.txt";
   "requirements/requirements_asr.txt";
   "requirements/requirements_cv.txt";
   "requirements/requirements_nlp.txt";
   "requirements/requirements_tts.txt";
   "requirements/requirements_text_processing.txt"].

(** [path] names a file that can be read. *)
Definition readable (w : world) (path : string) : Prop :=
  exists raw, files w !! path = Some (File raw).

(** The exception that reading [path] as text ends in, by what the path
    names; [None] for a file that can be read. *)
Definition read_error (path : string) (n : option node) : option exn :=
  match n with
  | Some (File _) => None
  | Some Undecodable => Some UnicodeDecodeError
  | Some Directory => Some (OSError IsADirectoryError path)
  | Some Unreadable => Some (OSError PermissionError path)
  | None => Some (OSError FileNotFoundError path)
  end.

(** A source tree with all seven requirement files. *)
Definition seven_files : world :=
  disk [("requirements/requirements.txt", File (text_of ["torch"; "numpy"]));
        ("requirements/requirements_test.txt", File (text_of ["pytest"; "# lint"; "black"]));
        ("requirements/requirements_asr.txt", File (text_of ["numpy"; "librosa"]));
        ("requirements/requirements_cv.txt", File (text_of ["pillow"]));
        ("requirements/requirements_nlp.txt", File (text_of ["numpy"; ""; "sentencepiece"]));
        ("requirements/requirements_tts.txt", File (text_of ["numba"; "librosa"]));
        ("requirements/requirements_text_processing.txt", File (text_of ["inflect"]))].

(** The seven files, the asr one not being UTF-8 text. *)
Definition asr_not_utf8 : world :=
  disk [("requirements/requirements.txt", File (text_of ["torch"; "numpy"]));
        ("requirements/requirements_test.txt", File (text_of ["pytest"]));
        ("requirements/requirements_asr.txt", Undecodable);
        ("requirements/requirements_cv.txt", File (text_of ["pillow"]));
        ("requirements/requirements_nlp.txt", File (text_of ["sentencepiece"]));
        ("requirements/requirements_tts.txt", File (text_of ["numba"]));
        ("requirements/requirements_text_processing.txt", File (text_of ["inflect"]))].

(** The same tree without the cv file. *)
Definition no_cv : world :=
  disk [("requirements/requirements.txt", File (text_of ["torch"; "numpy"]));
        ("requirements/requirements_test.txt", File (text_of ["pytest"]));
        ("requirements/requirements_asr.txt", File (text_of ["numpy"; "librosa"]));
        ("requirements/requirements_nlp.txt", File (text_of ["sentencepiece"]));
        ("requirements/requirements_tts.txt", File (text_of ["numba"]));
        ("requirements/requirements_text_processing.txt", File (text_of ["inflect"]))].

(** A requirements file with mixed line ends and no final line end. *)
Definition mixed_ends : world :=
  disk [("requirements/requirements.txt",
         File (text_ended [("numpy", EndCRLF); ("  ", EndLF);
                           ("# pinned", EndLF); (" librosa ", EndCRLF)]
                          "torch>=1.0"))].

(** What lines 80-97 return in [seven_files]. *)
Definition seven_loaded : dependencies :=
  Dependencies 0 [("test", 1); ("asr", 2); ("cv", 3); ("nlp", 4); ("tts", 8);
                  ("text_processing", 6); ("all", 7)] 1.

(** A tree whose [nemo/README.md] is a directory. *)
Definition md_is_directory : world :=
  disk [("nemo/README.md", Directory); ("README.rst", File "NeMo");
        ("/src/README.rst", File "NeMo")].

(** A working directory that has a [README.rst] while the directory of
    the script, [/src], has none. *)
Definition rst_elsewhere : world := disk [("README.rst", File "NeMo")].

(** A system on which isort runs and black is not installed. *)
Definition no_black (command : list string) (fs : gmap string node)
    : spawn * gmap string node :=
  (match command with
   | "isort" :: _ => Exited 1
   | _ => NotStarted FileNotFoundError
   end, fs).

(** What [split_aux] gives out when the run being read ends. *)
Definition flushed (cur : list ascii) : list string :=
  match cur with
  | [] => []
  | _ => [string_of_list_ascii (rev cur)]
  end.

(** A tree whose [nemo/README.md] may not be read. *)
Definition md_not_permitted : world :=
  disk [("nemo/README.md", Unreadable); ("README.rst", File "NeMo");
        ("/src/README.rst", File "NeMo")].

(** * Properties *)

(** ** The monad *)

Lemma bind_returned {A B : Type} (m : M A) (k : A -> M B) w a w' :
  m w = (Returned a, w') -> bind m k w = k a w'.
Proof. unfold bind. intros ->. reflexivity. Qed.

Lemma bind_raised {A B : Type} (m : M A) (k : A -> M B) w e w' :
  m w = (Raised e, w') -> bind m k w = (Raised e, w').
Proof. unfold bind. intros ->. reflexivity. Qed.

(** ** The requirement-file loader *)

Lemma open_read_file path raw w :
  files w !! path = Some (File raw) -> open_read path w = (Returned raw, w).
Proof. unfold open_read. intros ->. reflexivity. Qed.

Lemma open_read_fails path w :
  files w !! path = None \/ files w !! path = Some Unreadable
    \/ files w !! path = Some Directory ->
  exists kind, open_read path w = (Raised (OSError kind path), w).
Proof.
  unfold open_read. intros [-> | [-> | ->]]; eauto.
Qed.

Lemma req_file_returns filename folder raw w :
  files w !! os_path_join folder filename = Some (File raw) ->
  req_file filename folder w =
    (Returned (length (heap w)),
     World (files w) (heap w ++ [req_lines (Str.readlines raw)])
           (log w) (spawned w)).
Proof.
  intros Hf. unfold req_file.
  rewrite (bind_returned _ _ _ _ _ (open_read_file _ _ _ Hf)).
  reflexivity.
Qed.

(** What the comprehension on line 77 does guarantee: every string it
    returns is the trimmed form of a line it kept, is not empty, and
    comes from a line whose first character is not '#'. *)
Lemma req_lines_In content y :
  In y (req_lines content) <->
  exists x, In x content /\ y = Str.strip x /\ Str.nonempty y = true
            /\ Str.startswith x "#" = false.
Proof.
  unfold req_lines. rewrite in_map_iff. split.
  - intros (x & <- & Hx). apply filter_In in Hx as [Hin Hk].
    unfold keeps in Hk. apply andb_true_iff in Hk as [Hn Hs].
    apply negb_true_iff in Hs. eauto 6.
  - intros (x & Hin & -> & Hn & Hs). exists x. split; [reflexivity |].
    apply filter_In. split; [assumption |].
    unfold keeps. rewrite Hn, Hs. reflexivity.
Qed.

(** The order of the file is kept: the result is a filtered, mapped copy
    of the lines, and it is never longer than the file. *)
Lemma req_lines_length content :
  length (req_lines content) <= length content.
Proof.
  unfold req_lines. rewrite length_map. apply List.filter_length_le.
Qed.


(** Where code and specification part: only on lines that have white
    space before a '#'.  On a file without such a line the loader
    returns what the specification says. *)
Lemma req_lines_agrees content :
  (forall x, In x content ->
     Str.startswith (Str.strip x) "#" = Str.startswith x "#") ->
  req_lines content = req_lines_spec content.
Proof.
  intros H. unfold req_lines, req_lines_spec. f_equal.
  apply List.filter_ext_in. intros x Hx. unfold keeps.
  rewrite (H x Hx). reflexivity.
Qed.

(** C2: [req_file] tests the untrimmed line for a leading '#', so an
    indented comment line is not dropped: on a file with the two lines
    "  # pinned" and "numpy" it returns the two strings "# pinned" and
    "numpy", although the file has one non-blank, non-comment line, which
    is what the specification asks for, and the trimmed form of the
    first line begins with '#'. *)
Theorem req_file_indented_comment :
  exists l w',
    req_file "requirements.txt" requirements indented_comment = (Returned l, w')
    /\ heap w' !! l = Some ["# pinned"; "numpy"]
    /\ req_lines_spec (Str.readlines (text_of ["  # pinned"; "numpy"]))
       = ["numpy"]
    /\ Str.startswith (Str.strip "  # pinned") "#" = true.
Proof.
  eexists _, _. split; [| split; [| split]].
  - erewrite req_file_returns by (vm_compute; reflexivity). reflexivity.
  - vm_compute. reflexivity.
  - vm_compute. reflexivity.
  - reflexivity.
Qed.



(** ** List objects and the extras dict *)

Lemma chain_items_eq ls w :
  chain_items ls w
    = (Returned (concat (map (fun l => default [] (heap w !! l)) ls)), w).
Proof.
  induction ls as [| l r IH]; [reflexivity |].
  cbn [chain_items map concat]. unfold bind, items_of.
  rewrite IH. reflexivity.
Qed.

Lemma list_of_chain_eq ls w :
  list_of_chain ls w
    = (Returned (length (heap w)),
       World (files w)
             (heap w ++ [concat (map (fun l => default [] (heap w !! l)) ls)])
             (log w) (spawned w)).
Proof.
  unfold list_of_chain.
  rewrite (bind_returned _ _ _ _ _ (chain_items_eq ls w)). reflexivity.
Qed.

Lemma dict_lookup_setitem_eq k v d :
  dict_lookup k (dict_setitem k v d) = Some v.
Proof.
  induction d as [| [k' v'] r IH]; cbn.
  - rewrite String.eqb_refl. reflexivity.
  - destruct (String.eqb k' k) eqn:E; cbn; rewrite E; [reflexivity | exact IH].
Qed.

Lemma dict_lookup_setitem_ne k k' v d :
  k <> k' -> dict_lookup k' (dict_setitem k v d) = dict_lookup k' d.
Proof.
  intros Hne. induction d as [| [k0 v0] r IH]; cbn.
  - destruct (String.eqb_spec k k'); [contradiction | reflexivity].
  - destruct (String.eqb_spec k0 k) as [-> | Hk]; cbn.
    + destruct (String.eqb_spec k k'); [contradiction | reflexivity].
    + rewrite IH. reflexivity.
Qed.

(** Rebinding a key that is present changes neither the keys nor their
    order. *)
Lemma dict_setitem_keys k v d :
  is_Some (dict_lookup k d) -> map fst (dict_setitem k v d) = map fst d.
Proof.
  induction d as [| [k0 v0] r IH]; cbn.
  - intros [x Hx]. discriminate.
  - destruct (String.eqb k0 k); cbn; [reflexivity |].
    intros H. rewrite (IH H). reflexivity.
Qed.

(** An old list object is still there, unchanged, after the heap grew. *)
Lemma heap_lookup_old (h : list (list string)) new l xs :
  h !! l = Some xs -> (h ++ new) !! l = Some xs.
Proof. intros H. apply lookup_app_l_Some. exact H. Qed.

Lemma heap_lookup_new (h : list (list string)) new i :
  (h ++ new) !! (length h + i) = new !! i.
Proof.
  rewrite lookup_app_r by lia. f_equal. lia.
Qed.

(** [req_file] either returns a new list object holding the kept lines
    of a readable file, or raises and changes nothing. *)
Lemma req_file_cases filename folder w :
  (exists raw,
     files w !! os_path_join folder filename = Some (File raw)
     /\ req_file filename folder w =
          (Returned (length (heap w)),
           World (files w) (heap w ++ [req_lines (Str.readlines raw)])
                 (log w) (spawned w)))
  \/ (exists e, req_file filename folder w = (Raised e, w)).
Proof.
  destruct (files w !! os_path_join folder filename) as [[raw | | |] |] eqn:E.
  - left. exists raw. split; [reflexivity |]. apply req_file_returns, E.
  - right. eexists. unfold req_file. apply bind_raised.
    unfold open_read. rewrite E. reflexivity.
  - right. eexists. unfold req_file. apply bind_raised.
    unfold open_read. rewrite E. reflexivity.
  - right. eexists. unfold req_file. apply bind_raised.
    unfold open_read. rewrite E. reflexivity.
  - right. eexists. unfold req_file. apply bind_raised.
    unfold open_read. rewrite E. reflexivity.
Qed.

(** One step of [load_extras]: the next [req_file] call returned. *)
Ltac load_step H :=
  match type of H with
  | bind (req_file ?f ?d) _ ?w = (Returned _, _) =>
      let raw := fresh "raw" in
      let Hf := fresh "Hfile" in
      let Hr := fresh "Hreq" in
      let e := fresh "e" in
      destruct (req_file_cases f d w) as [(raw & Hf & Hr) | (e & Hr)];
      [ rewrite (bind_returned _ _ _ _ _ Hr) in H; cbn [files heap log spawned] in H
      | rewrite (bind_raised _ _ _ _ _ Hr) in H; discriminate H ]
  end.

(** When [load_extras] returns, the six groups are six new list objects,
    allocated in the order of the dict display, and the dict binds the
    six names to them in that order. *)
Lemma load_extras_inv w d w1 :
  load_extras w = (Returned d, w1) ->
  exists test asr cv nlp tts tp,
    d = [("test", length (heap w) + 0); ("asr", length (heap w) + 1);
         ("cv", length (heap w) + 2); ("nlp", length (heap w) + 3);
         ("tts", length (heap w) + 4);
         ("text_processing", length (heap w) + 5)]
    /\ w1 = World (files w) (heap w ++ [test; asr; cv; nlp; tts; tp])
                  (log w) (spawned w).
Proof.
  unfold load_extras. intros H.
  do 6 load_step H.
  unfold ret in H. injection H as <- <-.
  do 6 eexists. split.
  - rewrite !length_app. cbn [length].
    repeat (apply f_equal2; [apply f_equal; lia |]). reflexivity.
  - rewrite <- !app_assoc. cbn [app]. reflexivity.
Qed.

Lemma heap_lookup_fresh (h : list (list string)) xs :
  (h ++ [xs]) !! length h = Some xs.
Proof.
  replace (length h) with (length h + 0) by lia.
  rewrite heap_lookup_new. reflexivity.
Qed.

(** Line 92, computed. *)
Lemma flatten_all_eq d w :
  flatten_all d w
    = (Returned (dict_setitem "all" (length (heap w)) d),
       World (files w)
             (heap w ++ [concat (map (fun l => default [] (heap w !! l))
                                     (dict_values d))])
             (log w) (spawned w)).
Proof.
  unfold flatten_all.
  rewrite (bind_returned _ _ _ _ _ (list_of_chain_eq _ w)). reflexivity.
Qed.

(** Line 95, computed: the dict rebinds "tts" to a new list object that
    holds the items of the old "tts" object followed by those of "asr". *)
Lemma link_tts_eq d w lt la :
  dict_lookup "tts" d = Some lt ->
  dict_lookup "asr" d = Some la ->
  link_tts d w
    = (Returned (dict_setitem "tts" (length (heap w)) d),
       World (files w)
             (heap w ++ [default [] (heap w !! lt) ++ default [] (heap w !! la)])
             (log w) (spawned w)).
Proof.
  intros Ht Ha. unfold link_tts, dict_getitem. rewrite Ht, Ha.
  unfold bind at 1. unfold ret at 1. unfold bind at 1. unfold ret at 1.
  rewrite (bind_returned _ _ _ _ _ (list_of_chain_eq _ w)).
  unfold ret. cbn [map concat]. rewrite app_nil_r. reflexivity.
Qed.

Lemma group_inv d w k xs :
  group d w k = Some xs ->
  exists l, dict_lookup k d = Some l /\ heap w !! l = Some xs.
Proof.
  unfold group. destruct (dict_lookup k d) as [l |]; [eauto | discriminate].
Qed.

(** [load_extras] returns as soon as the six files can be read. *)
Lemma load_extras_returns w t a c n s p :
  files w !! "requirements/requirements_test.txt" = Some (File t) ->
  files w !! "requirements/requirements_asr.txt" = Some (File a) ->
  files w !! "requirements/requirements_cv.txt" = Some (File c) ->
  files w !! "requirements/requirements_nlp.txt" = Some (File n) ->
  files w !! "requirements/requirements_tts.txt" = Some (File s) ->
  files w !! "requirements/requirements_text_processing.txt" = Some (File p) ->
  load_extras w
    = (Returned [("test", length (heap w) + 0); ("asr", length (heap w) + 1);
                 ("cv", length (heap w) + 2); ("nlp", length (heap w) + 3);
                 ("tts", length (heap w) + 4);
                 ("text_processing", length (heap w) + 5)],
       World (files w)
             (heap w ++ [req_lines (Str.readlines t);
                         req_lines (Str.readlines a);
                         req_lines (Str.readlines c);
                         req_lines (Str.readlines n);
                         req_lines (Str.readlines s);
                         req_lines (Str.readlines p)])
             (log w) (spawned w)).
Proof.
  intros Ht Ha Hc Hn Hs Hp. unfold load_extras.
  rewrite (bind_returned _ _ _ _ _
             (req_file_returns "requirements_test.txt" requirements t w Ht)).
  erewrite (bind_returned (req_file "requirements_asr.txt" _))
    by (apply (req_file_returns "requirements_asr.txt" requirements); exact Ha).
  erewrite (bind_returned (req_file "requirements_cv.txt" _))
    by (apply (req_file_returns "requirements_cv.txt" requirements); exact Hc).
  erewrite (bind_returned (req_file "requirements_nlp.txt" _))
    by (apply (req_file_returns "requirements_nlp.txt" requirements); exact Hn).
  erewrite (bind_returned (req_file "requirements_tts.txt" _))
    by (apply (req_file_returns "requirements_tts.txt" requirements); exact Hs).
  erewrite (bind_returned (req_file "requirements_text_processing.txt" _))
    by (apply (req_file_returns "requirements_text_processing.txt" requirements); exact Hp).
  unfold ret. cbn [files heap log spawned].
  rewrite !length_app. cbn [length]. rewrite <- !app_assoc. cbn [app].
  apply f_equal2; [| reflexivity]. apply f_equal.
  repeat (apply f_equal2; [apply f_equal; lia |]). reflexivity.
Qed.

(** C3: when the six groups have been loaded, line 92 returns, and binds
    "all", as a seventh key, to a list that is the items of test, asr, cv,
    nlp, tts and text_processing one after the other, in that order
    (the order of the dict) and with nothing removed; so its length is
    the sum of the six lengths. *)
Theorem all_group_is_concatenation w d w1 :
  load_extras w = (Returned d, w1) ->
  exists test asr cv nlp tts tp d2 w2 all,
    group d w1 "test" = Some test /\ group d w1 "asr" = Some asr
    /\ group d w1 "cv" = Some cv /\ group d w1 "nlp" = Some nlp
    /\ group d w1 "tts" = Some tts
    /\ group d w1 "text_processing" = Some tp
    /\ map fst d = ["test"; "asr"; "cv"; "nlp"; "tts"; "text_processing"]
    /\ flatten_all d w1 = (Returned d2, w2)
    /\ map fst d2 = map fst d ++ ["all"]
    /\ group d2 w2 "all" = Some all
    /\ all = test ++ asr ++ cv ++ nlp ++ tts ++ tp
    /\ length all = length test + length asr + length cv + length nlp
                    + length tts + length tp.
Proof.
  intros H. apply load_extras_inv in H
    as (test & asr & cv & nlp & tts & tp & -> & ->).
  exists test, asr, cv, nlp, tts, tp.
  eexists _, _, (test ++ asr ++ cv ++ nlp ++ tts ++ tp).
  unfold group. cbn [dict_lookup String.eqb Ascii.eqb Bool.eqb heap].
  rewrite !heap_lookup_new. cbn [lookup list_lookup].
  do 7 (split; [reflexivity |]).
  split; [| split; [| split; [| split]]].
  - unfold flatten_all.
    rewrite (bind_returned _ _ _ _ _ (list_of_chain_eq _ _)).
    unfold ret. reflexivity.
  - reflexivity.
  - cbn [dict_setitem dict_lookup String.eqb Ascii.eqb Bool.eqb heap
         dict_values map snd concat].
    rewrite !heap_lookup_new. cbn [lookup list_lookup default].
    rewrite app_nil_r. rewrite heap_lookup_fresh. reflexivity.
  - reflexivity.
  - rewrite !length_app. lia.
Qed.

Lemma all_group_is_concatenation_witness :
  exists d w1,
    load_extras six_groups = (Returned d, w1)
    /\ exists test asr cv nlp tts tp d2 w2 all,
         group d w1 "test" = Some test /\ group d w1 "asr" = Some asr
         /\ group d w1 "cv" = Some cv /\ group d w1 "nlp" = Some nlp
         /\ group d w1 "tts" = Some tts
         /\ group d w1 "text_processing" = Some tp
         /\ map fst d = ["test"; "asr"; "cv"; "nlp"; "tts"; "text_processing"]
         /\ flatten_all d w1 = (Returned d2, w2)
         /\ map fst d2 = map fst d ++ ["all"]
         /\ group d2 w2 "all" = Some all
         /\ all = test ++ asr ++ cv ++ nlp ++ tts ++ tp
         /\ length all = length test + length asr + length cv + length nlp
                         + length tts + length tp.
Proof.
  eexists _, _. split.
  - vm_compute. reflexivity.
  - apply (all_group_is_concatenation six_groups). vm_compute. reflexivity.
Defined.

(** C4: line 95 returns whenever "tts" and "asr" are bound, and after it
    the "tts" group is its former items followed by the items of "asr",
    both in their own order; "asr" itself is as before. *)
Theorem link_tts_appends_asr d w tts asr :
  group d w "tts" = Some tts ->
  group d w "asr" = Some asr ->
  exists d' w',
    link_tts d w = (Returned d', w')
    /\ group d' w' "tts" = Some (tts ++ asr)
    /\ group d' w' "asr" = Some asr.
Proof.
  intros Ht Ha.
  apply group_inv in Ht as (lt & Ht & Hlt).
  apply group_inv in Ha as (la & Ha & Hla).
  eexists _, _. split; [apply (link_tts_eq d w lt la Ht Ha) |].
  rewrite Hlt, Hla. unfold group. cbn [heap default]. split.
  - rewrite dict_lookup_setitem_eq. apply heap_lookup_fresh.
  - rewrite dict_lookup_setitem_ne by discriminate. rewrite Ha.
    apply heap_lookup_old, Hla.
Qed.

Lemma link_tts_appends_asr_witness :
  exists d' w',
    link_tts (fst before_link) (snd before_link) = (Returned d', w')
    /\ group d' w' "tts" = Some (["numba"; "librosa"] ++ ["numpy"; "librosa"])
    /\ group d' w' "asr" = Some ["numpy"; "librosa"].
Proof.
  apply (link_tts_appends_asr (fst before_link) (snd before_link));
    reflexivity.
Defined.

(** C10: line 95 builds a new list object and rebinds "tts" to it, and
    that is all it does: the dict has the same keys in the same order,
    every other key names the object it named before, every list object
    that existed holds the items it held (so each other group, "all"
    among them, reads as before), and files, log and spawned programs
    are untouched. *)
Theorem link_tts_frame d w tts asr :
  group d w "tts" = Some tts ->
  group d w "asr" = Some asr ->
  exists d' w',
    link_tts d w = (Returned d', w')
    /\ dict_lookup "tts" d' = Some (length (heap w))
    /\ heap w !! length (heap w) = None
    /\ map fst d' = map fst d
    /\ (forall k, k <> "tts" -> dict_lookup k d' = dict_lookup k d)
    /\ (forall l xs, heap w !! l = Some xs -> heap w' !! l = Some xs)
    /\ (forall k xs, k <> "tts" ->
          group d w k = Some xs -> group d' w' k = Some xs)
    /\ (forall all, group d w "all" = Some all -> group d' w' "all" = Some all)
    /\ files w' = files w /\ log w' = log w /\ spawned w' = spawned w.
Proof.
  intros Ht Ha.
  apply group_inv in Ht as (lt & Ht & Hlt).
  apply group_inv in Ha as (la & Ha & Hla).
  assert (Hframe : forall k xs, k <> "tts" ->
            group d w k = Some xs ->
            group (dict_setitem "tts" (length (heap w)) d)
              (World (files w)
                 (heap w ++ [default [] (heap w !! lt)
                             ++ default [] (heap w !! la)])
                 (log w) (spawned w)) k = Some xs).
  { intros k xs Hk Hg. apply group_inv in Hg as (l & Hl & Hxs).
    unfold group. rewrite dict_lookup_setitem_ne by congruence.
    rewrite Hl. cbn [heap]. apply heap_lookup_old, Hxs. }
  eexists _, _. split; [apply (link_tts_eq d w lt la Ht Ha) |].
  cbn [heap files log spawned].
  split; [apply dict_lookup_setitem_eq |].
  split; [apply lookup_ge_None_2; lia |].
  split; [apply dict_setitem_keys; rewrite Ht; eauto |].
  split; [intros k Hk; apply dict_lookup_setitem_ne; congruence |].
  split; [intros l xs Hl; apply heap_lookup_old, Hl |].
  split; [exact Hframe |].
  split; [intros all; apply Hframe; discriminate |].
  repeat split.
Qed.

Lemma link_tts_frame_witness :
  exists d' w',
    link_tts (fst before_link) (snd before_link) = (Returned d', w')
    /\ group d' w' "all" = Some ["numpy"; "librosa"; "numba"; "librosa"].
Proof.
  destruct (link_tts_frame (fst before_link) (snd before_link)
              ["numba"; "librosa"] ["numpy"; "librosa"]
              eq_refl eq_refl)
    as (d' & w' & Hrun & _ & _ & _ & _ & _ & _ & Hall & _).
  exists d', w'. split; [exact Hrun |]. apply Hall. reflexivity.
Defined.

(** ** The long description *)

Lemma os_path_exists_eq path w :
  os_path_exists path w
    = (Returned (match files w !! path with Some _ => true | None => false end),
       w).
Proof.
  unfold os_path_exists. destruct (files w !! path) as [n |].
  - rewrite bool_decide_eq_true_2 by eauto. reflexivity.
  - rewrite bool_decide_eq_false_2 by apply is_Some_None. reflexivity.
Qed.

(** C6, as amended: the long description is chosen in three steps.  A
    [nemo/README.md] that is a readable file gives its text, as text
    mode reads it, with type text/markdown; when that path does not
    exist, a [README.rst] that is a readable file, and is the file the
    script opens next to itself, gives its text with type text/x-rst;
    when neither path exists, the description is 'See ' followed by the
    homepage, with type text/plain.  The world is not changed. *)
Theorem long_description_fallback here homepage w :
  (forall raw,
     files w !! "nemo/README.md" = Some (File raw) ->
     long_description here homepage w
       = (Returned (Str.universal_newlines raw, "text/markdown"), w))
  /\ (forall raw,
        files w !! "nemo/README.md" = None ->
        files w !! "README.rst" = Some (File raw) ->
        files w !! os_path_join here "README.rst" = files w !! "README.rst" ->
        long_description here homepage w = (Returned (raw, "text/x-rst"), w))
  /\ (files w !! "nemo/README.md" = None ->
      files w !! "README.rst" = None ->
      long_description here homepage w
        = (Returned (("See " ++ homepage)%string, "text/plain"), w)).
Proof.
  unfold long_description. split; [| split].
  - intros raw Hmd.
    rewrite (bind_returned _ _ _ _ _ (os_path_exists_eq _ w)). rewrite Hmd.
    rewrite (bind_returned _ _ _ _ _ (open_read_file _ _ _ Hmd)).
    reflexivity.
  - intros raw Hmd Hrst Hsame.
    rewrite (bind_returned _ _ _ _ _ (os_path_exists_eq _ w)). rewrite Hmd.
    rewrite (bind_returned _ _ _ _ _ (os_path_exists_eq _ w)). rewrite Hrst.
    rewrite Hrst in Hsame.
    rewrite (bind_returned _ _ _ _ _ (open_read_file _ _ _ Hsame)).
    reflexivity.
  - intros Hmd Hrst.
    rewrite (bind_returned _ _ _ _ _ (os_path_exists_eq _ w)). rewrite Hmd.
    rewrite (bind_returned _ _ _ _ _ (os_path_exists_eq _ w)). rewrite Hrst.
    reflexivity.
Qed.

Lemma long_description_fallback_witness :
  long_description "/src" "https://github.com/nvidia/nemo" with_md
    = (Returned ("NeMo toolkit", "text/markdown"), with_md)
  /\ long_description "/src" "https://github.com/nvidia/nemo" with_rst
       = (Returned ("NeMo", "text/x-rst"), with_rst)
  /\ long_description "/src" "https://github.com/nvidia/nemo" bare
       = (Returned ("See https://github.com/nvidia/nemo", "text/plain"), bare).
Proof.
  split; [| split].
  - apply (proj1 (long_description_fallback "/src"
                    "https://github.com/nvidia/nemo" with_md) "NeMo toolkit").
    vm_compute. reflexivity.
  - apply (proj1 (proj2 (long_description_fallback "/src"
                           "https://github.com/nvidia/nemo" with_rst)) "NeMo").
    + vm_compute. reflexivity.
    + vm_compute. reflexivity.
    + vm_compute. reflexivity.
  - apply (proj2 (proj2 (long_description_fallback "/src"
                           "https://github.com/nvidia/nemo" bare))).
    + vm_compute. reflexivity.
    + vm_compute. reflexivity.
Defined.

(** C6 as stated, with "exists" alone as the condition, does not hold.
    In [md_not_permitted] the file [nemo/README.md] exists, and the
    script ends with the [PermissionError] of opening it: no contents are
    used.  In [rst_elsewhere] there is no [nemo/README.md] and
    [README.rst] exists with the text "NeMo", and the script, which opens
    [/src/README.rst], ends with a [FileNotFoundError]. *)
Lemma long_description_exists_not_enough :
  (is_Some (files md_not_permitted !! "nemo/README.md")
   /\ long_description "/src" "https://github.com/nvidia/nemo"
        md_not_permitted
      = (Raised (OSError PermissionError "nemo/README.md"), md_not_permitted))
  /\ (files rst_elsewhere !! "nemo/README.md" = None
      /\ files rst_elsewhere !! "README.rst" = Some (File "NeMo")
      /\ long_description "/src" "https://github.com/nvidia/nemo"
           rst_elsewhere
         = (Raised (OSError FileNotFoundError "/src/README.rst"),
            rst_elsewhere)).
Proof.
  split; [split | split; [| split]].
  - vm_compute. eauto.
  - vm_compute. reflexivity.
  - vm_compute. reflexivity.
  - vm_compute. reflexivity.
  - vm_compute. reflexivity.
Qed.

(** ** The style command *)

Section StyleFacts.

Variable exec : list string -> gmap string node -> spawn * gmap string node.

Lemma call_checker_exited base scope check w code :
  fst (exec (checker_command base scope check) (files w)) = Exited code ->
  __call_checker exec base scope check w
    = (Returned code,
       World (snd (exec (checker_command base scope check) (files w)))
             (heap w)
             (log w ++ [announced (checker_command base scope check)])
             (spawned w ++ [checker_command base scope check])).
Proof.
  intros H. unfold __call_checker, bind, logger_emit, subprocess_call.
  cbn [files heap log spawned].
  destruct (exec (checker_command base scope check) (files w)) as [r fs].
  cbn [fst snd] in *. subst r. reflexivity.
Qed.

Lemma call_checker_not_started base scope check w e :
  fst (exec (checker_command base scope check) (files w)) = NotStarted e ->
  __call_checker exec base scope check w
    = (Raised (OSError e (hd "" (checker_command base scope check))),
       World (snd (exec (checker_command base scope check) (files w)))
             (heap w)
             (log w ++ [announced (checker_command base scope check)])
             (spawned w ++ [checker_command base scope check])).
Proof.
  intros H. unfold __call_checker, bind, logger_emit, subprocess_call.
  cbn [files heap log spawned].
  destruct (exec (checker_command base scope check) (files w)) as [r fs].
  cbn [fst snd] in *. subst r. reflexivity.
Qed.

(** [run] when both tools could be started: its outcome is decided by
    the two exit codes, and the world records two announcements, two
    spawns and the verdict. *)
Lemma run_exited self w r1 r2 :
  fst (exec (isort_command self) (files w)) = Exited r1 ->
  fst (exec (black_command self) (snd (exec (isort_command self) (files w))))
    = Exited r2 ->
  run exec self w
    = (if (r1 =? 0)%Z && (r2 =? 0)%Z then Returned tt
       else Raised (SystemExit (if negb (r1 =? 0)%Z then r1 else r2)),
       World (snd (exec (black_command self)
                        (snd (exec (isort_command self) (files w)))))
             (heap w)
             (log w ++ [announced (isort_command self);
                        announced (black_command self);
                        if (r1 =? 0)%Z && (r2 =? 0)%Z then (INFO, PASS)
                        else (ERROR, FAIL)])
             (spawned w ++ [isort_command self; black_command self])).
Proof.
  intros H1 H2. unfold run, _isort, _black.
  rewrite (bind_returned _ _ _ _ _
             (call_checker_exited _ _ _ w r1 H1)).
  erewrite (bind_returned (__call_checker exec (Str.split __BLACK_BASE) _ _))
    by (apply call_checker_exited; exact H2).
  cbn [files heap log spawned].
  unfold isort_command, black_command.
  destruct ((r1 =? 0)%Z && (r2 =? 0)%Z).
  - unfold _pass, logger_emit. cbn [files heap log spawned].
    rewrite <- !app_assoc. reflexivity.
  - unfold _fail, bind, logger_emit, raise. cbn [files heap log spawned].
    rewrite <- !app_assoc. reflexivity.
Qed.

(** [run] when isort started and black could not be: black was still
    spawned, and its [OSError] leaves [run]. *)
Lemma run_black_not_started self w r1 e :
  fst (exec (isort_command self) (files w)) = Exited r1 ->
  fst (exec (black_command self) (snd (exec (isort_command self) (files w))))
    = NotStarted e ->
  run exec self w
    = (Raised (OSError e (hd "" (black_command self))),
       World (snd (exec (black_command self)
                        (snd (exec (isort_command self) (files w)))))
             (heap w)
             (log w ++ [announced (isort_command self);
                        announced (black_command self)])
             (spawned w ++ [isort_command self; black_command self])).
Proof.
  intros H1 H2. unfold run, _isort, _black.
  rewrite (bind_returned _ _ _ _ _
             (call_checker_exited _ _ _ w r1 H1)).
  erewrite (bind_raised (__call_checker exec (Str.split __BLACK_BASE) _ _))
    by (apply call_checker_not_started; exact H2).
  cbn [files heap log spawned]. rewrite <- !app_assoc. reflexivity.
Qed.

(** [run] when isort could not be started: nothing else is spawned. *)
Lemma run_isort_not_started self w e :
  fst (exec (isort_command self) (files w)) = NotStarted e ->
  fst (run exec self w) = Raised (OSError e (hd "" (isort_command self)))
  /\ spawned (snd (run exec self w)) = spawned w ++ [isort_command self].
Proof.
  intros H1. unfold run, _isort.
  rewrite (bind_raised _ _ _ _ _
             (call_checker_not_started _ _ _ w e H1)).
  split; reflexivity.
Qed.

(** Whatever code isort exits with, black is spawned next, on the files
    isort left. *)
Lemma run_spawned self w r1 :
  fst (exec (isort_command self) (files w)) = Exited r1 ->
  spawned (snd (run exec self w))
    = spawned w ++ [isort_command self; black_command self]
  /\ files (snd (run exec self w))
     = snd (exec (black_command self)
                 (snd (exec (isort_command self) (files w)))).
Proof.
  intros H1.
  destruct (fst (exec (black_command self)
                      (snd (exec (isort_command self) (files w)))))
    as [r2 | e] eqn:H2.
  - rewrite (run_exited self w r1 r2 H1 H2). split; reflexivity.
  - rewrite (run_black_not_started self w r1 e H1 H2). split; reflexivity.
Qed.

End StyleFacts.

Lemma isort_base_split :
  Str.split __ISORT_BASE
    = ["isort"; "--multi-line=3"; "--trailing-comma"; "--force-grid-wrap=0";
       "--use-parentheses"; "--line-width=119"; "-rc"; "-ws"].
Proof. reflexivity. Qed.

Lemma black_base_split :
  Str.split __BLACK_BASE
    = ["black"; "--skip-string-normalization"; "--line-length=119"].
Proof. reflexivity. Qed.

(** Without isort on the system, a default run raises the
    [FileNotFoundError] of the spawn and black is never started. *)
Example run_without_isort :
  fst (run no_isort (initialize_options blank) bare)
    = Raised (OSError FileNotFoundError "isort")
  /\ spawned (snd (run no_isort (initialize_options blank) bare))
     = [["isort"; "--multi-line=3"; "--trailing-comma"; "--force-grid-wrap=0";
         "--use-parentheses"; "--line-width=119"; "-rc"; "-ws";
         "."; "--check"; "--diff"]].
Proof. split; reflexivity. Qed.

(** C1: when isort exits with code [r1] and black with code [r2], [run]
    returns normally and logs PASS if both codes are 0; otherwise it logs
    FAIL and raises [SystemExit] with [r1] if [r1] is not 0, and with
    [r2] if [r1] is 0. *)
Theorem run_exit_codes exec self w (r1 r2 : Z) :
  fst (exec (isort_command self) (files w)) = Exited r1 ->
  fst (exec (black_command self) (snd (exec (isort_command self) (files w))))
    = Exited r2 ->
  (r1 = 0%Z -> r2 = 0%Z ->
     fst (run exec self w) = Returned tt
     /\ last (log (snd (run exec self w))) = Some (INFO, PASS))
  /\ (r1 <> 0%Z ->
        fst (run exec self w) = Raised (SystemExit r1)
        /\ last (log (snd (run exec self w))) = Some (ERROR, FAIL))
  /\ (r1 = 0%Z -> r2 <> 0%Z ->
        fst (run exec self w) = Raised (SystemExit r2)
        /\ last (log (snd (run exec self w))) = Some (ERROR, FAIL)).
Proof.
  intros H1 H2. rewrite (run_exited exec self w r1 r2 H1 H2).
  cbn [fst snd log].
  replace (log w ++ [announced (isort_command self);
                     announced (black_command self);
                     if (r1 =? 0)%Z && (r2 =? 0)%Z then (INFO, PASS)
                     else (ERROR, FAIL)])
    with ((log w ++ [announced (isort_command self);
                     announced (black_command self)])
          ++ [if (r1 =? 0)%Z && (r2 =? 0)%Z then (INFO, PASS)
              else (ERROR, FAIL)])
    by (rewrite <- app_assoc; reflexivity).
  rewrite last_snoc.
  split; [| split].
  - intros -> ->. split; reflexivity.
  - intros Hr1. apply Z.eqb_neq in Hr1. rewrite Hr1. split; reflexivity.
  - intros -> Hr2. apply Z.eqb_neq in Hr2. rewrite Hr2. split; reflexivity.
Qed.

Lemma run_exit_codes_witness :
  fst (run (tools 0 0) (initialize_options blank) bare) = Returned tt
  /\ fst (run (tools 2 5) (initialize_options blank) bare)
       = Raised (SystemExit 2)
  /\ fst (run (tools 0 5) (initialize_options blank) bare)
       = Raised (SystemExit 5).
Proof.
  split; [| split].
  - apply (proj1 (run_exit_codes (tools 0 0) (initialize_options blank) bare
                    0 0 eq_refl eq_refl)); reflexivity.
  - apply (proj1 (proj2 (run_exit_codes (tools 2 5) (initialize_options blank)
                           bare 2 5 eq_refl eq_refl))). lia.
  - apply (proj2 (proj2 (run_exit_codes (tools 0 5) (initialize_options blank)
                           bare 0 5 eq_refl eq_refl))); [reflexivity | lia].
Defined.

(** C5: the two programs that [run] spawns get the base arguments, then
    the scope, and then '--check' and '--diff' exactly when [self.fix] is
    falsy.  When [self.fix] is truthy the scope is the last argument, and
    neither flag occurs in either command line (unless the scope is
    itself one of the two words). *)
Theorem fix_toggles_check_flags exec self w (r1 : Z) :
  fst (exec (isort_command self) (files w)) = Exited r1 ->
  (truthy (fix_ self) = false ->
     spawned (snd (run exec self w))
       = spawned w
         ++ [["isort"; "--multi-line=3"; "--trailing-comma";
              "--force-grid-wrap=0"; "--use-parentheses"; "--line-width=119";
              "-rc"; "-ws"] ++ [scope self; "--check"; "--diff"];
             ["black"; "--skip-string-normalization"; "--line-length=119"]
               ++ [scope self; "--check"; "--diff"]])
  /\ (truthy (fix_ self) = true ->
        spawned (snd (run exec self w))
          = spawned w
            ++ [["isort"; "--multi-line=3"; "--trailing-comma";
                 "--force-grid-wrap=0"; "--use-parentheses";
                 "--line-width=119"; "-rc"; "-ws"] ++ [scope self];
                ["black"; "--skip-string-normalization"; "--line-length=119"]
                  ++ [scope self]])
  /\ (truthy (fix_ self) = true ->
        scope self <> "--check" -> scope self <> "--diff" ->
        forall command flag,
          In command [isort_command self; black_command self] ->
          In flag ["--check"; "--diff"] -> ~ In flag command).
Proof.
  intros H1. destruct (run_spawned exec self w r1 H1) as [Hs _].
  rewrite Hs. unfold isort_command, black_command, checker_command.
  rewrite isort_base_split, black_base_split.
  split; [| split].
  - intros ->. reflexivity.
  - intros ->. reflexivity.
  - intros -> Hc Hd command flag Hcmd Hflag.
    cbn [negb app In] in *.
    destruct Hflag as [<- | [<- | []]];
      destruct Hcmd as [<- | [<- | []]]; cbn [In];
      intuition (discriminate || congruence).
Qed.

Lemma fix_toggles_check_flags_witness :
  spawned (snd (run (tools 0 0) (mkStyleCommand "nemo" (PyStr "")) bare))
    = [["isort"; "--multi-line=3"; "--trailing-comma"; "--force-grid-wrap=0";
        "--use-parentheses"; "--line-width=119"; "-rc"; "-ws";
        "nemo"; "--check"; "--diff"];
       ["black"; "--skip-string-normalization"; "--line-length=119";
        "nemo"; "--check"; "--diff"]]
  /\ spawned (snd (run (tools 0 0) (mkStyleCommand "nemo" (PyInt 1)) bare))
       = [["isort"; "--multi-line=3"; "--trailing-comma";
           "--force-grid-wrap=0"; "--use-parentheses"; "--line-width=119";
           "-rc"; "-ws"; "nemo"];
          ["black"; "--skip-string-normalization"; "--line-length=119";
           "nemo"]].
Proof.
  split.
  - apply (proj1 (fix_toggles_check_flags (tools 0 0)
                    (mkStyleCommand "nemo" (PyStr "")) bare 0 eq_refl)).
    reflexivity.
  - apply (proj1 (proj2 (fix_toggles_check_flags (tools 0 0)
                           (mkStyleCommand "nemo" (PyInt 1)) bare 0 eq_refl))).
    reflexivity.
Defined.

(** C7: whatever code isort exits with, zero or not, [run] spawns
    exactly two programs, isort first and black second, and black runs
    on the files as isort left them. *)
Theorem black_runs_after_isort exec self w (r1 : Z) :
  fst (exec (isort_command self) (files w)) = Exited r1 ->
  spawned (snd (run exec self w))
    = spawned w ++ [isort_command self; black_command self]
  /\ hd_error (isort_command self) = Some "isort"
  /\ hd_error (black_command self) = Some "black"
  /\ files (snd (run exec self w))
     = snd (exec (black_command self)
                 (snd (exec (isort_command self) (files w)))).
Proof.
  intros H1. destruct (run_spawned exec self w r1 H1) as [Hs Hf].
  split; [exact Hs |]. split; [| split; [| exact Hf]].
  - unfold isort_command, checker_command. rewrite isort_base_split.
    destruct (negb (truthy (fix_ self))); reflexivity.
  - unfold black_command, checker_command. rewrite black_base_split.
    destruct (negb (truthy (fix_ self))); reflexivity.
Qed.

Lemma black_runs_after_isort_witness :
  spawned (snd (run (tools 1 0) (initialize_options blank) bare))
    = [isort_command (initialize_options blank);
       black_command (initialize_options blank)].
Proof.
  apply (black_runs_after_isort (tools 1 0) (initialize_options blank) bare 1).
  reflexivity.
Defined.

(** C9: [initialize_options] sets the scope to '.' and [fix] to the empty
    string, which is falsy; a run with these options spawns both tools
    on '.' with '--check' and '--diff'. *)
Theorem initialize_options_defaults self :
  scope (initialize_options self) = "."
  /\ fix_ (initialize_options self) = PyStr ""
  /\ truthy (fix_ (initialize_options self)) = false
  /\ forall exec w (r1 : Z),
       fst (exec (isort_command (initialize_options self)) (files w))
         = Exited r1 ->
       spawned (snd (run exec (initialize_options self) w))
         = spawned w
           ++ [["isort"; "--multi-line=3"; "--trailing-comma";
                "--force-grid-wrap=0"; "--use-parentheses";
                "--line-width=119"; "-rc"; "-ws"; "."; "--check"; "--diff"];
               ["black"; "--skip-string-normalization"; "--line-length=119";
                "."; "--check"; "--diff"]].
Proof.
  repeat (split; [reflexivity |]).
  intros exec w r1 H1.
  destruct (run_spawned exec (initialize_options self) w r1 H1) as [Hs _].
  rewrite Hs. reflexivity.
Qed.

Lemma initialize_options_defaults_witness :
  spawned (snd (run (tools 0 0) (initialize_options blank) bare))
    = [["isort"; "--multi-line=3"; "--trailing-comma"; "--force-grid-wrap=0";
        "--use-parentheses"; "--line-width=119"; "-rc"; "-ws";
        "."; "--check"; "--diff"];
       ["black"; "--skip-string-normalization"; "--line-length=119";
        "."; "--check"; "--diff"]].
Proof.
  apply (proj2 (proj2 (proj2 (initialize_options_defaults blank)))
           (tools 0 0) bare 0%Z).
  reflexivity.
Defined.

(** ** Lines 80-97 from end to end *)

(** When the seven requirement files can be read, dependency loading
    returns: the groups hold the kept lines of their files, except that
    "tts" ends with the "asr" lines and "all" is the six groups as they
    were loaded; [tests_requirements] is the very object bound to "test". *)
Lemma dependency_loading_returns w i t a c n s p :
  files w !! "requirements/requirements.txt" = Some (File i) ->
  files w !! "requirements/requirements_test.txt" = Some (File t) ->
  files w !! "requirements/requirements_asr.txt" = Some (File a) ->
  files w !! "requirements/requirements_cv.txt" = Some (File c) ->
  files w !! "requirements/requirements_nlp.txt" = Some (File n) ->
  files w !! "requirements/requirements_tts.txt" = Some (File s) ->
  files w !! "requirements/requirements_text_processing.txt" = Some (File p) ->
  let load raw := req_lines (Str.readlines raw) in
  exists deps w',
    dependency_loading w = (Returned deps, w')
    /\ heap w' !! install_requires deps = Some (load i)
    /\ map fst (extras_require deps)
       = ["test"; "asr"; "cv"; "nlp"; "tts"; "text_processing"; "all"]
    /\ group (extras_require deps) w' "test" = Some (load t)
    /\ group (extras_require deps) w' "asr" = Some (load a)
    /\ group (extras_require deps) w' "cv" = Some (load c)
    /\ group (extras_require deps) w' "nlp" = Some (load n)
    /\ group (extras_require deps) w' "tts" = Some (load s ++ load a)
    /\ group (extras_require deps) w' "text_processing" = Some (load p)
    /\ group (extras_require deps) w' "all"
       = Some (load t ++ load a ++ load c ++ load n ++ load s ++ load p)
    /\ dict_lookup "test" (extras_require deps) = Some (tests_requirements deps)
    /\ files w' = files w /\ log w' = log w /\ spawned w' = spawned w.
Proof.
  intros Hi Ht Ha Hc Hn Hs Hp load.
  eexists _, _. split.
  { unfold dependency_loading.
    rewrite (bind_returned _ _ _ _ _
               (req_file_returns "requirements.txt" requirements i w Hi)).
    erewrite (bind_returned load_extras)
      by (apply load_extras_returns; cbn [files]; eassumption).
    erewrite (bind_returned (flatten_all _)) by apply flatten_all_eq.
    erewrite (bind_returned (link_tts _)) by (apply link_tts_eq; reflexivity).
    unfold dict_getitem, bind, ret.
    cbn [dict_setitem dict_lookup String.eqb Ascii.eqb Bool.eqb].
    reflexivity. }
  cbn [install_requires extras_require tests_requirements heap files log
       spawned dict_setitem dict_lookup String.eqb Ascii.eqb Bool.eqb
       dict_values map fst snd concat].
  unfold group.
  cbn [dict_setitem dict_lookup String.eqb Ascii.eqb Bool.eqb].
  remember (heap w ++ [req_lines (Str.readlines i)]) as h1 eqn:Hh1.
  rewrite !heap_lookup_new. cbn [lookup list_lookup default].
  rewrite ?app_nil_r. rewrite <- !app_assoc. cbn [app].
  rewrite !length_app. cbn [length].
  rewrite <- ?Nat.add_assoc. cbn [Nat.add].
  rewrite !heap_lookup_new. cbn [lookup list_lookup default].
  rewrite <- ?app_assoc. cbn [app].
  rewrite ?length_app. cbn [length].
  rewrite <- ?Nat.add_assoc. cbn [Nat.add].
  rewrite ?heap_lookup_new. cbn [lookup list_lookup default].
  cbn [heap files log spawned from_option id].
  rewrite ?heap_lookup_new. cbn [lookup list_lookup].
  split.
  { subst h1. apply heap_lookup_old, heap_lookup_fresh. }
  repeat split.
Qed.

(** * Further properties *)

(** ** Text: appending, trimming, lines *)

Lemma append_cons x (a b : string) :
  (String x a ++ b)%string = String x (a ++ b).
Proof. reflexivity. Qed.

Lemma append_nil_l (b : string) : ("" ++ b)%string = b.
Proof. reflexivity. Qed.

Lemma append_assoc (a b c : string) :
  ((a ++ b) ++ c)%string = (a ++ b ++ c)%string.
Proof.
  induction a as [| x a IH]; [reflexivity |].
  rewrite !append_cons. f_equal. exact IH.
Qed.

Lemma append_nil_r (a : string) : (a ++ "")%string = a.
Proof.
  induction a as [| x a IH]; [reflexivity |].
  rewrite append_cons. f_equal. exact IH.
Qed.


Lemma isspace_LF : Str.isspace Str.LF = true.
Proof. reflexivity. Qed.

Lemma isspace_CR : Str.isspace Str.CR = true.
Proof. reflexivity. Qed.

(** White space at the end does not change what [rstrip] returns. *)
Lemma rstrip_snoc_space s c :
  Str.isspace c = true -> Str.rstrip (s ++ String c "") = Str.rstrip s.
Proof.
  intros Hc. induction s as [| a s IH].
  - rewrite append_nil_l. cbn [Str.rstrip]. rewrite Hc. reflexivity.
  - rewrite append_cons. cbn [Str.rstrip]. rewrite IH. reflexivity.
Qed.

Lemma strip_snoc_space s c :
  Str.isspace c = true -> Str.strip (s ++ String c "") = Str.strip s.
Proof.
  intros Hc. unfold Str.strip. induction s as [| a s IH].
  - rewrite append_nil_l. cbn [Str.lstrip]. rewrite Hc. reflexivity.
  - rewrite append_cons. cbn [Str.lstrip].
    destruct (Str.isspace a); [exact IH |].
    rewrite <- append_cons. apply (rstrip_snoc_space (String a s) c Hc).
Qed.

Lemma strip_ending l e : Str.strip (l ++ ending e) = Str.strip l.
Proof.
  destruct e; cbn [ending].
  - apply strip_snoc_space, isspace_LF.
  - rewrite <- (strip_snoc_space l Str.CR isspace_CR).
    rewrite <- (strip_snoc_space (l ++ String Str.CR "") Str.LF isspace_LF).
    rewrite append_assoc. reflexivity.
Qed.













(** ** What [req_file] returns *)

Lemma rstrip_cons_nonspace c r :
  Str.isspace c = false -> Str.rstrip (String c r) = String c (Str.rstrip r).
Proof.
  intros Hc. cbn [Str.rstrip]. rewrite Hc. destruct (Str.rstrip r); reflexivity.
Qed.

Lemma rstrip_cons_keep c s d r :
  Str.rstrip s = String d r -> Str.rstrip (String c s) = String c (String d r).
Proof. intros H. cbn [Str.rstrip]. rewrite H. reflexivity. Qed.

Lemma rstrip_idem s : Str.rstrip (Str.rstrip s) = Str.rstrip s.
Proof.
  induction s as [| c s IH]; [reflexivity |].
  destruct (Str.rstrip s) as [| d r] eqn:E.
  - cbn [Str.rstrip]. rewrite E.
    destruct (Str.isspace c) eqn:Hc; [reflexivity |].
    cbn [Str.rstrip]. rewrite Hc. reflexivity.
  - rewrite (rstrip_cons_keep c s d r E).
    apply rstrip_cons_keep. exact IH.
Qed.

(** After [lstrip] a string is empty or begins with a character that is
    not white space. *)
Lemma lstrip_head s :
  Str.lstrip s = "" \/
  exists c r, Str.lstrip s = String c r /\ Str.isspace c = false.
Proof.
  induction s as [| c s IH]; [left; reflexivity |].
  cbn [Str.lstrip]. destruct (Str.isspace c) eqn:Hc; [exact IH |].
  right. eauto.
Qed.

Lemma lstrip_strip s : Str.lstrip (Str.strip s) = Str.strip s.
Proof.
  unfold Str.strip. destruct (lstrip_head s) as [-> | (c & r & -> & Hc)].
  - reflexivity.
  - rewrite (rstrip_cons_nonspace c r Hc). cbn [Str.lstrip].
    rewrite Hc. reflexivity.
Qed.

Lemma rstrip_strip s : Str.rstrip (Str.strip s) = Str.strip s.
Proof. unfold Str.strip. apply rstrip_idem. Qed.

(** When [req_file] returns, the file was there and the new object is
    the last of the heap. *)
Lemma req_file_returned_inv filename folder w l w' :
  req_file filename folder w = (Returned l, w') ->
  exists raw,
    files w !! os_path_join folder filename = Some (File raw)
    /\ l = length (heap w)
    /\ w' = World (files w) (heap w ++ [req_lines (Str.readlines raw)])
                  (log w) (spawned w).
Proof.
  intros H.
  destruct (req_file_cases filename folder w) as [(raw & Hf & Hr) | (e & Hr)];
    rewrite Hr in H; [| discriminate H].
  injection H as <- <-. eauto.
Qed.

(** X2: every string that [req_file] returns is non-empty and has no
    white space at its start or at its end. *)
Theorem req_file_items_trimmed filename folder w l w' :
  req_file filename folder w = (Returned l, w') ->
  exists items,
    heap w' !! l = Some items
    /\ forall y, In y items ->
         Str.nonempty y = true /\ Str.lstrip y = y /\ Str.rstrip y = y.
Proof.
  intros H. apply req_file_returned_inv in H as (raw & _ & -> & ->).
  eexists. split; [cbn [heap]; apply heap_lookup_fresh |].
  intros y Hy. apply req_lines_In in Hy as (x & _ & -> & Hn & _).
  split; [exact Hn |]. split; [apply lstrip_strip | apply rstrip_strip].
Qed.

Lemma req_file_items_trimmed_witness :
  exists items,
    heap (snd (req_file "requirements.txt" requirements mixed_ends))
      !! 0 = Some items
    /\ forall y, In y items ->
         Str.nonempty y = true /\ Str.lstrip y = y /\ Str.rstrip y = y.
Proof.
  apply (req_file_items_trimmed "requirements.txt" requirements mixed_ends
           0 (snd (req_file "requirements.txt" requirements mixed_ends))).
  vm_compute. reflexivity.
Defined.

(** X3: [req_file] returns the empty list exactly when every line of the
    file is blank or has '#' as its first character; an empty file is
    such a file. *)
Theorem req_file_empty_iff filename folder w raw :
  files w !! os_path_join folder filename = Some (File raw) ->
  exists l w',
    req_file filename folder w = (Returned l, w')
    /\ (heap w' !! l = Some [] <->
        forall x, In x (Str.readlines raw) ->
          Str.strip x = "" \/ Str.startswith x "#" = true).
Proof.
  intros Hf. eexists _, _. split; [apply (req_file_returns _ _ _ _ Hf) |].
  cbn [heap]. rewrite heap_lookup_fresh. split.
  - intros Hnil x Hx. injection Hnil as Hnil.
    destruct (Str.strip x) as [| c r] eqn:Hs; [left; reflexivity |].
    destruct (Str.startswith x "#") eqn:Hh; [right; reflexivity |].
    exfalso. assert (Hin : In (Str.strip x) (req_lines (Str.readlines raw))).
    { apply req_lines_In. exists x. rewrite Hs. auto. }
    rewrite Hnil in Hin. exact Hin.
  - intros Hall. f_equal.
    destruct (req_lines (Str.readlines raw)) as [| y ys] eqn:E; [reflexivity |].
    exfalso. assert (Hin : In y (req_lines (Str.readlines raw)))
      by (rewrite E; left; reflexivity).
    apply req_lines_In in Hin as (x & Hx & -> & Hn & Hh).
    destruct (Hall x Hx) as [Hb | Hc].
    + rewrite Hb in Hn. discriminate Hn.
    + rewrite Hc in Hh. discriminate Hh.
Qed.

Lemma req_file_empty_iff_witness :
  exists l w',
    req_file "requirements.txt" requirements
      (disk [("requirements/requirements.txt", File "")]) = (Returned l, w')
    /\ heap w' !! l = Some [].
Proof.
  destruct (req_file_empty_iff "requirements.txt" requirements
              (disk [("requirements/requirements.txt", File "")]) ""
              eq_refl) as (l & w' & Hrun & Hiff).
  exists l, w'. split; [exact Hrun |]. apply Hiff. intros x [].
Defined.

(** ** Dependency loading as a whole *)

Lemma open_read_error path w e :
  read_error path (files w !! path) = Some e ->
  open_read path w = (Raised e, w).
Proof.
  unfold open_read, read_error.
  destruct (files w !! path) as [[raw | | |] |]; intros H;
    try discriminate H; injection H as <-; reflexivity.
Qed.

(** A path that is not a readable file has its exception, which is an
    [OSError] for that path or a [UnicodeDecodeError]. *)
Lemma read_error_unreadable w path :
  ~ readable w path ->
  exists e,
    read_error path (files w !! path) = Some e
    /\ (e = UnicodeDecodeError \/ exists kind, e = OSError kind path).
Proof.
  intros Hn. unfold read_error.
  destruct (files w !! path) as [[raw | | |] |] eqn:E; eauto 6.
  exfalso. apply Hn. exists raw. exact E.
Qed.

Lemma req_file_raises filename folder w e :
  read_error (os_path_join folder filename)
             (files w !! os_path_join folder filename) = Some e ->
  req_file filename folder w = (Raised e, w).
Proof.
  intros He. unfold req_file. apply bind_raised.
  apply open_read_error, He.
Qed.

Lemma readable_dec w path : readable w path \/ ~ readable w path.
Proof.
  unfold readable. destruct (files w !! path) as [[raw | | |] |].
  - left. eauto.
  - right. intros [raw H]. discriminate H.
  - right. intros [raw H]. discriminate H.
  - right. intros [raw H]. discriminate H.
  - right. intros [raw H]. discriminate H.
Qed.

(** One more file of [load_extras]: either it cannot be read, and the
    goal is closed by the failure branch [fail_tac], or the call is
    replaced by its result. *)
Ltac extras_step file fail_tac :=
  match goal with
  | |- context [bind (req_file file requirements) _ ?W] =>
      let raw := fresh "raw" in
      let Hf := fresh "Hfile" in
      let e := fresh "e" in
      let He := fresh "Herror" in
      let Hr := fresh "Hraise" in
      destruct (readable_dec W (os_path_join requirements file))
        as [[raw Hf] | Hf];
      [ rewrite (bind_returned _ _ _ _ _
                   (req_file_returns file requirements raw W Hf));
        cbn [files heap log spawned] in *
      | destruct (read_error_unreadable W _ Hf) as (e & He & _);
        pose proof (req_file_raises file requirements W e He) as Hr;
        right; exists e; fail_tac Hr He ]
  end.

(** [load_extras] returns, or raises the exception of the first of its
    six files that cannot be read; in either case it leaves the files,
    the log and the spawned programs as they were. *)
Lemma load_extras_cases w :
  (exists t a c n s p,
     files w !! "requirements/requirements_test.txt" = Some (File t)
     /\ files w !! "requirements/requirements_asr.txt" = Some (File a)
     /\ files w !! "requirements/requirements_cv.txt" = Some (File c)
     /\ files w !! "requirements/requirements_nlp.txt" = Some (File n)
     /\ files w !! "requirements/requirements_tts.txt" = Some (File s)
     /\ files w !! "requirements/requirements_text_processing.txt"
        = Some (File p))
  \/ (exists e before p after w',
        tl requirement_paths = before ++ p :: after
        /\ Forall (readable w) before
        /\ ~ readable w p
        /\ read_error p (files w !! p) = Some e
        /\ load_extras w = (Raised e, w')
        /\ files w' = files w /\ log w' = log w /\ spawned w' = spawned w).
Proof.
  unfold load_extras.
  extras_step "requirements_test.txt" ltac:(fun Hr He =>
    exists []; do 3 eexists;
    rewrite (bind_raised _ _ _ _ _ Hr);
    repeat split; [constructor | exact Hfile | exact He]).
  extras_step "requirements_asr.txt" ltac:(fun Hr He =>
    exists ["requirements/requirements_test.txt"]; do 3 eexists;
    rewrite (bind_raised _ _ _ _ _ Hr);
    repeat split; [repeat constructor; eexists; eassumption | exact Hfile0 | exact He]).
  extras_step "requirements_cv.txt" ltac:(fun Hr He =>
    exists ["requirements/requirements_test.txt";
            "requirements/requirements_asr.txt"]; do 3 eexists;
    rewrite (bind_raised _ _ _ _ _ Hr);
    repeat split; [repeat constructor; eexists; eassumption | exact Hfile1 | exact He]).
  extras_step "requirements_nlp.txt" ltac:(fun Hr He =>
    exists ["requirements/requirements_test.txt";
            "requirements/requirements_asr.txt";
            "requirements/requirements_cv.txt"]; do 3 eexists;
    rewrite (bind_raised _ _ _ _ _ Hr);
    repeat split; [repeat constructor; eexists; eassumption | exact Hfile2 | exact He]).
  extras_step "requirements_tts.txt" ltac:(fun Hr He =>
    exists ["requirements/requirements_test.txt";
            "requirements/requirements_asr.txt";
            "requirements/requirements_cv.txt";
            "requirements/requirements_nlp.txt"]; do 3 eexists;
    rewrite (bind_raised _ _ _ _ _ Hr);
    repeat split; [repeat constructor; eexists; eassumption | exact Hfile3 | exact He]).
  extras_step "requirements_text_processing.txt" ltac:(fun Hr He =>
    exists ["requirements/requirements_test.txt";
            "requirements/requirements_asr.txt";
            "requirements/requirements_cv.txt";
            "requirements/requirements_nlp.txt";
            "requirements/requirements_tts.txt"]; do 3 eexists;
    rewrite (bind_raised _ _ _ _ _ Hr);
    repeat split; [repeat constructor; eexists; eassumption | exact Hfile4 | exact He]).
  left. do 6 eexists. repeat split; eassumption.
Qed.

Lemma dependency_loading_cases w :
  (exists i t a c n s p,
     files w !! "requirements/requirements.txt" = Some (File i)
     /\ files w !! "requirements/requirements_test.txt" = Some (File t)
     /\ files w !! "requirements/requirements_asr.txt" = Some (File a)
     /\ files w !! "requirements/requirements_cv.txt" = Some (File c)
     /\ files w !! "requirements/requirements_nlp.txt" = Some (File n)
     /\ files w !! "requirements/requirements_tts.txt" = Some (File s)
     /\ files w !! "requirements/requirements_text_processing.txt"
        = Some (File p))
  \/ (exists e before p after w',
        requirement_paths = before ++ p :: after
        /\ Forall (readable w) before
        /\ ~ readable w p
        /\ read_error p (files w !! p) = Some e
        /\ dependency_loading w = (Raised e, w')
        /\ files w' = files w /\ log w' = log w /\ spawned w' = spawned w).
Proof.
  destruct (readable_dec w "requirements/requirements.txt") as [[i Hi] | Hi].
  - pose proof (req_file_returns "requirements.txt" requirements i w Hi) as Hr.
    destruct (load_extras_cases
                (World (files w) (heap w ++ [req_lines (Str.readlines i)])
                       (log w) (spawned w)))
      as [(t & a & c & n & s & p & Hfiles)
         | (e & before & q & after & w' & Hsplit & Hbefore & Hq & He & Hl
            & Hf & Hlog & Hsp)].
    + left. exists i, t, a, c, n, s, p. split; [exact Hi | exact Hfiles].
    + right. exists e, ("requirements/requirements.txt" :: before), q,
        after, w'.
      split; [cbn [requirement_paths tl app] in *; rewrite <- Hsplit;
              reflexivity |].
      split; [constructor; [exists i; exact Hi | exact Hbefore] |].
      split; [exact Hq |]. split; [exact He |].
      split; [| split; [exact Hf | split; [exact Hlog | exact Hsp]]].
      unfold dependency_loading.
      rewrite (bind_returned _ _ _ _ _ Hr).
      apply bind_raised. exact Hl.
  - right. destruct (read_error_unreadable w _ Hi) as (e & He & _).
    exists e, [], "requirements/requirements.txt",
      (tl requirement_paths), w.
    split; [reflexivity |]. split; [constructor |]. split; [exact Hi |].
    split; [exact He |]. split; [| repeat split].
    unfold dependency_loading. apply bind_raised.
    apply (req_file_raises "requirements.txt" requirements w e He).
Qed.

Lemma readable_all w i t a c n s p :
  files w !! "requirements/requirements.txt" = Some (File i)
  /\ files w !! "requirements/requirements_test.txt" = Some (File t)
  /\ files w !! "requirements/requirements_asr.txt" = Some (File a)
  /\ files w !! "requirements/requirements_cv.txt" = Some (File c)
  /\ files w !! "requirements/requirements_nlp.txt" = Some (File n)
  /\ files w !! "requirements/requirements_tts.txt" = Some (File s)
  /\ files w !! "requirements/requirements_text_processing.txt"
     = Some (File p) ->
  Forall (readable w) requirement_paths.
Proof.
  intros (Hi & Ht & Ha & Hc & Hn & Hs & Hp).
  repeat constructor; eexists; eassumption.
Qed.

(** X5: lines 80-97 run to their end exactly when each of the seven
    requirement files can be read. *)
Theorem dependency_loading_returns_iff w :
  (exists deps w', dependency_loading w = (Returned deps, w'))
  <-> Forall (readable w) requirement_paths.
Proof.
  destruct (dependency_loading_cases w)
    as [(i & t & a & c & n & s & p & Hfiles)
       | (e & before & q & after & w1 & Hsplit & _ & Hq & _ & Hl & _)].
  - split; [intros _; apply (readable_all _ _ _ _ _ _ _ _ Hfiles) |].
    intros _. destruct Hfiles as (Hi & Ht & Ha & Hc & Hn & Hs & Hp).
    destruct (dependency_loading_returns w i t a c n s p Hi Ht Ha Hc Hn Hs Hp)
      as (deps & w' & Hrun & _).
    eauto.
  - split.
    + intros (deps & w' & Hrun). rewrite Hl in Hrun. discriminate Hrun.
    + intros Hall. exfalso. apply Hq.
      apply (proj1 (List.Forall_forall _ _) Hall). rewrite Hsplit.
      apply in_or_app. right. left. reflexivity.
Qed.

Lemma dependency_loading_returns_iff_witness :
  exists deps w', dependency_loading seven_files = (Returned deps, w').
Proof.
  apply (proj2 (dependency_loading_returns_iff seven_files)).
  repeat constructor; eexists; vm_compute; reflexivity.
Defined.

(** X6: when lines 80-97 fail, the exception is the one that reading
    the first requirement file, in reading order, that cannot be read
    ends in: the [OSError] of opening that path when it is missing, a
    directory or not permitted, a [UnicodeDecodeError] when the file is
    not UTF-8 text.  It is never a [KeyError] or a [SystemExit].  The
    files, the log and the spawned programs are as before. *)
Theorem dependency_loading_first_failure w e w' :
  dependency_loading w = (Raised e, w') ->
  exists before p after,
    requirement_paths = before ++ p :: after
    /\ Forall (readable w) before
    /\ ~ readable w p
    /\ read_error p (files w !! p) = Some e
    /\ (e = UnicodeDecodeError \/ exists kind, e = OSError kind p)
    /\ files w' = files w /\ log w' = log w /\ spawned w' = spawned w.
Proof.
  intros H.
  destruct (dependency_loading_cases w)
    as [(i & t & a & c & n & s & p & Hi & Ht & Ha & Hc & Hn & Hs & Hp)
       | (e0 & before & q & after & w1 & Hsplit & Hbefore & Hq & He & Hl
          & Hf & Hlog & Hsp)].
  - destruct (dependency_loading_returns w i t a c n s p Hi Ht Ha Hc Hn Hs Hp)
      as (deps & w0 & Hrun & _).
    rewrite Hrun in H. discriminate H.
  - rewrite Hl in H. injection H as <- <-.
    exists before, q, after.
    destruct (read_error_unreadable w q Hq) as (e1 & He1 & Hkind).
    rewrite He in He1. injection He1 as <-.
    auto 10.
Qed.

Lemma dependency_loading_first_failure_witness :
  (exists before p after,
     requirement_paths = before ++ p :: after
     /\ Forall (readable no_cv) before
     /\ ~ readable no_cv p
     /\ read_error p (files no_cv !! p)
        = Some (OSError FileNotFoundError "requirements/requirements_cv.txt")
     /\ (OSError FileNotFoundError "requirements/requirements_cv.txt"
         = UnicodeDecodeError
         \/ exists kind,
              OSError FileNotFoundError "requirements/requirements_cv.txt"
              = OSError kind p)
     /\ files (snd (dependency_loading no_cv)) = files no_cv
     /\ log (snd (dependency_loading no_cv)) = log no_cv
     /\ spawned (snd (dependency_loading no_cv)) = spawned no_cv)
  /\ (exists before p after,
        requirement_paths = before ++ p :: after
        /\ Forall (readable asr_not_utf8) before
        /\ ~ readable asr_not_utf8 p
        /\ read_error p (files asr_not_utf8 !! p) = Some UnicodeDecodeError
        /\ (UnicodeDecodeError = UnicodeDecodeError
            \/ exists kind, UnicodeDecodeError = OSError kind p)
        /\ files (snd (dependency_loading asr_not_utf8)) = files asr_not_utf8
        /\ log (snd (dependency_loading asr_not_utf8)) = log asr_not_utf8
        /\ spawned (snd (dependency_loading asr_not_utf8))
           = spawned asr_not_utf8).
Proof.
  split.
  - apply (dependency_loading_first_failure no_cv
             (OSError FileNotFoundError "requirements/requirements_cv.txt")
             (snd (dependency_loading no_cv))).
    vm_compute. reflexivity.
  - apply (dependency_loading_first_failure asr_not_utf8 UnicodeDecodeError
             (snd (dependency_loading asr_not_utf8))).
    vm_compute. reflexivity.
Defined.

Lemma group_key_in d w k items :
  group d w k = Some items -> In k (map fst d).
Proof.
  unfold group. induction d as [| [k0 v0] d IH]; [discriminate |].
  cbn [dict_lookup map fst]. destruct (String.eqb_spec k0 k) as [-> | Hne].
  - intros _. left. reflexivity.
  - intros H. right. apply IH, H.
Qed.

(** A run of lines 80-97 that returned read seven files, and its result
    is the one [dependency_loading_returns] describes. *)
Lemma dependency_loading_returned_inv w deps w' :
  dependency_loading w = (Returned deps, w') ->
  exists test asr cv nlp tts tp,
    map fst (extras_require deps)
      = ["test"; "asr"; "cv"; "nlp"; "tts"; "text_processing"; "all"]
    /\ group (extras_require deps) w' "test" = Some test
    /\ group (extras_require deps) w' "asr" = Some asr
    /\ group (extras_require deps) w' "cv" = Some cv
    /\ group (extras_require deps) w' "nlp" = Some nlp
    /\ group (extras_require deps) w' "tts" = Some (tts ++ asr)
    /\ group (extras_require deps) w' "text_processing" = Some tp
    /\ group (extras_require deps) w' "all"
       = Some (test ++ asr ++ cv ++ nlp ++ tts ++ tp)
    /\ dict_lookup "test" (extras_require deps)
       = Some (tests_requirements deps).
Proof.
  intros H.
  destruct (dependency_loading_cases w)
    as [(i & t & a & c & n & s & p & Hi & Ht & Ha & Hc & Hn & Hs & Hp)
       | (e & before & q & after & w1 & _ & _ & _ & _ & Hl & _)].
  - destruct (dependency_loading_returns w i t a c n s p Hi Ht Ha Hc Hn Hs Hp)
      as (deps0 & w0 & Hrun & _ & Hkeys & Hg).
    rewrite Hrun in H. injection H as <- <-.
    do 6 eexists. split; [exact Hkeys |].
    destruct Hg as (H1 & H2 & H3 & H4 & H5 & H6 & H7 & H8 & _).
    repeat (split; [eassumption |]). exact H8.
  - rewrite Hl in H. discriminate H.
Qed.

(** X7: in the dict that lines 80-97 build, every requirement of every
    group is also in the "all" group; this holds for "tts" although its
    "asr" part was added after "all" was built. *)
Theorem all_covers_every_group w deps w' :
  dependency_loading w = (Returned deps, w') ->
  exists all,
    group (extras_require deps) w' "all" = Some all
    /\ forall k items x,
         group (extras_require deps) w' k = Some items ->
         In x items -> In x all.
Proof.
  intros H. apply dependency_loading_returned_inv in H
    as (test & asr & cv & nlp & tts & tp & Hkeys
        & Ht & Ha & Hc & Hn & Hs & Hp & Hall & _).
  eexists. split; [exact Hall |].
  intros k items x Hg Hx. pose proof (group_key_in _ _ _ _ Hg) as Hk.
  rewrite Hkeys in Hk. cbn [In] in Hk.
  repeat rewrite in_app_iff.
  destruct Hk as [<- | [<- | [<- | [<- | [<- | [<- | [<- | []]]]]]]];
    match goal with
    | Hk : group _ _ ?key = Some _, Hg : group _ _ ?key = Some _ |- _ =>
        rewrite Hk in Hg; injection Hg as <-
    end;
    repeat rewrite in_app_iff in Hx; tauto.
Qed.

Lemma all_covers_every_group_witness :
  exists all,
    group (extras_require seven_loaded) (snd (dependency_loading seven_files))
          "all" = Some all
    /\ forall k items x,
         group (extras_require seven_loaded)
               (snd (dependency_loading seven_files)) k = Some items ->
         In x items -> In x all.
Proof.
  apply (all_covers_every_group seven_files seven_loaded).
  vm_compute. reflexivity.
Defined.

(** X8: "all" is built before "tts" is extended, so in the final dict
    "all" is the six groups as they were loaded: the "asr" entries that
    "tts" gained are not in "all" a second time, and the length of "all"
    plus the length of "asr" is the sum of the six final lengths.
    [tests_requirements] is the list object of the "test" group
    itself. *)
Theorem all_predates_cross_link w deps w' :
  dependency_loading w = (Returned deps, w') ->
  exists test asr cv nlp tts tp all,
    group (extras_require deps) w' "test" = Some test
    /\ group (extras_require deps) w' "asr" = Some asr
    /\ group (extras_require deps) w' "cv" = Some cv
    /\ group (extras_require deps) w' "nlp" = Some nlp
    /\ group (extras_require deps) w' "tts" = Some tts
    /\ group (extras_require deps) w' "text_processing" = Some tp
    /\ group (extras_require deps) w' "all" = Some all
    /\ length all + length asr
       = length test + length asr + length cv + length nlp + length tts
         + length tp
    /\ heap w' !! tests_requirements deps = Some test
    /\ dict_lookup "test" (extras_require deps)
       = Some (tests_requirements deps).
Proof.
  intros H. apply dependency_loading_returned_inv in H
    as (test & asr & cv & nlp & tts & tp & _
        & Ht & Ha & Hc & Hn & Hs & Hp & Hall & Htests).
  exists test, asr, cv, nlp, (tts ++ asr), tp,
    (test ++ asr ++ cv ++ nlp ++ tts ++ tp).
  repeat (split; [assumption |]).
  split; [rewrite !length_app; lia |].
  split; [| exact Htests].
  unfold group in Ht. rewrite Htests in Ht. exact Ht.
Qed.

Lemma all_predates_cross_link_witness :
  exists asr all,
    group (extras_require seven_loaded) (snd (dependency_loading seven_files))
          "asr" = Some asr
    /\ group (extras_require seven_loaded)
             (snd (dependency_loading seven_files)) "all" = Some all
    /\ length all + length asr = 12.
Proof.
  destruct (all_predates_cross_link seven_files seven_loaded
              (snd (dependency_loading seven_files)))
    as (test & asr & cv & nlp & tts & tp & all
        & Ht & Ha & Hc & Hn & Hs & Hp & Hall & Hlen & _).
  - vm_compute. reflexivity.
  - exists asr, all. split; [exact Ha |]. split; [exact Hall |].
    rewrite Hlen.
    assert (E : forall (o : option (list string)) xs n,
              o = Some xs -> fmap length o = Some n -> length xs = n)
      by (intros o xs n -> Hn'; injection Hn' as <-; reflexivity).
    rewrite (E _ _ 2 Ht eq_refl), (E _ _ 2 Ha eq_refl), (E _ _ 1 Hc eq_refl),
      (E _ _ 2 Hn eq_refl), (E _ _ 4 Hs eq_refl), (E _ _ 1 Hp eq_refl).
    reflexivity.
Defined.

(** ** The long description: failures and the plain-text case *)

Lemma os_path_exists_bind {B : Type} path (k : bool -> M B) w :
  (b <- os_path_exists path ;; k b) w
    = k (match files w !! path with Some _ => true | None => false end) w.
Proof. apply bind_returned, os_path_exists_eq. Qed.

(** X9: when [nemo/README.md] exists but is a directory or may not be
    read, the script does not fall back to [README.rst] or to the plain
    text: the [OSError] of opening [nemo/README.md] ends it. *)
Theorem long_description_md_unreadable here homepage w :
  files w !! "nemo/README.md" = Some Directory
    \/ files w !! "nemo/README.md" = Some Unreadable ->
  exists kind,
    long_description here homepage w
      = (Raised (OSError kind "nemo/README.md"), w).
Proof.
  intros Hmd.
  assert (Hex : match files w !! "nemo/README.md" with
                | Some _ => true
                | None => false
                end = true)
    by (destruct Hmd as [-> | ->]; reflexivity).
  destruct (open_read_fails "nemo/README.md" w) as [kind Ho]; [tauto |].
  exists kind. unfold long_description.
  rewrite os_path_exists_bind, Hex. apply bind_raised. exact Ho.
Qed.

Lemma long_description_md_unreadable_witness :
  exists kind,
    long_description "/src" "https://github.com/nvidia/nemo" md_is_directory
      = (Raised (OSError kind "nemo/README.md"), md_is_directory).
Proof.
  apply (long_description_md_unreadable "/src"
           "https://github.com/nvidia/nemo" md_is_directory).
  left. vm_compute. reflexivity.
Defined.

(** X10: the script tests for [README.rst] in the working directory
    but opens the [README.rst] beside itself.  When the first exists and
    the second is missing, a directory or not permitted, the script
    fails with the [OSError] of the second path instead of using the
    plain text. *)
Theorem long_description_rst_beside_script here homepage w :
  files w !! "nemo/README.md" = None ->
  is_Some (files w !! "README.rst") ->
  files w !! os_path_join here "README.rst" = None
    \/ files w !! os_path_join here "README.rst" = Some Unreadable
    \/ files w !! os_path_join here "README.rst" = Some Directory ->
  exists kind,
    long_description here homepage w
      = (Raised (OSError kind (os_path_join here "README.rst")), w).
Proof.
  intros Hmd [n Hn] Hrst. destruct (open_read_fails _ _ Hrst) as [kind Ho].
  exists kind. unfold long_description.
  rewrite os_path_exists_bind, Hmd.
  rewrite os_path_exists_bind, Hn. apply bind_raised. exact Ho.
Qed.

Lemma long_description_rst_beside_script_witness :
  exists kind,
    long_description "/src" "https://github.com/nvidia/nemo" rst_elsewhere
      = (Raised (OSError kind "/src/README.rst"), rst_elsewhere).
Proof.
  apply (long_description_rst_beside_script "/src"
           "https://github.com/nvidia/nemo" rst_elsewhere).
  - vm_compute. reflexivity.
  - vm_compute. eauto.
  - left. vm_compute. reflexivity.
Defined.

(** X11: the plain-text description is used exactly when neither
    [nemo/README.md] nor [README.rst] exists, as a file or as anything
    else; and computing the long description never changes the world. *)
Theorem long_description_plain_iff here homepage w :
  ((exists text, fst (long_description here homepage w)
                 = Returned (text, "text/plain"))
   <-> files w !! "nemo/README.md" = None /\ files w !! "README.rst" = None)
  /\ snd (long_description here homepage w) = w.
Proof.
  unfold long_description. rewrite os_path_exists_bind.
  destruct (files w !! "nemo/README.md") as [md |] eqn:Hmd.
  - unfold bind, open_read. rewrite Hmd.
    destruct md; cbn [fst snd]; (split; [| reflexivity]);
      (split; [intros [text H]; discriminate H | intros [H _]; discriminate H]).
  - rewrite os_path_exists_bind.
    destruct (files w !! "README.rst") as [rst |] eqn:Hrst.
    + unfold bind, open_read.
      destruct (files w !! os_path_join here "README.rst")
        as [[raw | | |] |];
        cbn [fst snd]; (split; [| reflexivity]);
        (split; [intros [text H]; discriminate H
                | intros [_ H]; discriminate H]).
    + cbn [fst snd ret]. split; [| reflexivity].
      split; [auto |]. intros _. eexists. reflexivity.
Qed.

Lemma long_description_plain_iff_witness :
  exists text,
    fst (long_description "/src" "https://github.com/nvidia/nemo" bare)
      = Returned (text, "text/plain").
Proof.
  apply (proj2 (proj1 (long_description_plain_iff "/src"
                         "https://github.com/nvidia/nemo" bare))).
  split; vm_compute; reflexivity.
Defined.

(** ** The style command: every way a run can end *)

Section RunOutcomes.

Variable exec : list string -> gmap string node -> spawn * gmap string node.

Lemma run_isort_not_started_eq self w e :
  fst (exec (isort_command self) (files w)) = NotStarted e ->
  run exec self w
    = (Raised (OSError e (hd "" (isort_command self))),
       World (snd (exec (isort_command self) (files w))) (heap w)
             (log w ++ [announced (isort_command self)])
             (spawned w ++ [isort_command self])).
Proof.
  intros H1. unfold run, _isort.
  rewrite (bind_raised _ _ _ _ _ (call_checker_not_started exec _ _ _ w e H1)).
  reflexivity.
Qed.

(** The three ways [run] can go. *)
Lemma run_outcomes self w :
  (exists e,
     fst (exec (isort_command self) (files w)) = NotStarted e
     /\ run exec self w
        = (Raised (OSError e (hd "" (isort_command self))),
           World (snd (exec (isort_command self) (files w))) (heap w)
                 (log w ++ [announced (isort_command self)])
                 (spawned w ++ [isort_command self])))
  \/ (exists r1 e,
        fst (exec (isort_command self) (files w)) = Exited r1
        /\ fst (exec (black_command self)
                     (snd (exec (isort_command self) (files w))))
           = NotStarted e
        /\ run exec self w
           = (Raised (OSError e (hd "" (black_command self))),
              World (snd (exec (black_command self)
                               (snd (exec (isort_command self) (files w)))))
                    (heap w)
                    (log w ++ [announced (isort_command self);
                               announced (black_command self)])
                    (spawned w ++ [isort_command self; black_command self])))
  \/ (exists r1 r2,
        fst (exec (isort_command self) (files w)) = Exited r1
        /\ fst (exec (black_command self)
                     (snd (exec (isort_command self) (files w))))
           = Exited r2
        /\ run exec self w
           = (if (r1 =? 0)%Z && (r2 =? 0)%Z then Returned tt
              else Raised (SystemExit (if negb (r1 =? 0)%Z then r1 else r2)),
              World (snd (exec (black_command self)
                               (snd (exec (isort_command self) (files w)))))
                    (heap w)
                    (log w ++ [announced (isort_command self);
                               announced (black_command self);
                               if (r1 =? 0)%Z && (r2 =? 0)%Z then (INFO, PASS)
                               else (ERROR, FAIL)])
                    (spawned w ++ [isort_command self; black_command self]))).
Proof.
  destruct (fst (exec (isort_command self) (files w))) as [r1 | e] eqn:H1.
  - destruct (fst (exec (black_command self)
                        (snd (exec (isort_command self) (files w)))))
      as [r2 | e] eqn:H2.
    + right. right. exists r1, r2.
      split; [reflexivity |]. split; [reflexivity |].
      apply (run_exited exec self w r1 r2 H1 H2).
    + right. left. exists r1, e.
      split; [reflexivity |]. split; [reflexivity |].
      apply (run_black_not_started exec self w r1 e H1 H2).
  - left. exists e. split; [reflexivity |].
    apply run_isort_not_started_eq. exact H1.
Qed.

End RunOutcomes.

Lemma isort_command_head self : hd "" (isort_command self) = "isort".
Proof.
  unfold isort_command, checker_command. rewrite isort_base_split.
  destruct (negb (truthy (fix_ self))); reflexivity.
Qed.

Lemma black_command_head self : hd "" (black_command self) = "black".
Proof.
  unfold black_command, checker_command. rewrite black_base_split.
  destruct (negb (truthy (fix_ self))); reflexivity.
Qed.

(** X12: [run] never raises [SystemExit] with code 0: a run that ends
    in [SystemExit] always reports a failure to the shell. *)
Theorem run_never_exits_zero exec self w (code : Z) :
  fst (run exec self w) = Raised (SystemExit code) -> code <> 0%Z.
Proof.
  intros H.
  destruct (run_outcomes exec self w)
    as [(e & _ & Hr) | [(r1 & e & _ & _ & Hr) | (r1 & r2 & _ & _ & Hr)]];
    rewrite Hr in H; cbn [fst] in H; try discriminate H.
  destruct (Z.eqb_spec r1 0) as [-> | Hr1]; cbn [andb negb] in H.
  - destruct (Z.eqb_spec r2 0) as [E2 | Hr2]; [discriminate H |].
    injection H as E. rewrite <- E. exact Hr2.
  - injection H as E. rewrite <- E. exact Hr1.
Qed.

Lemma run_never_exits_zero_witness : (5 <> 0)%Z.
Proof.
  apply (run_never_exits_zero (tools 0 5) (initialize_options blank) bare 5).
  reflexivity.
Defined.

(** X13: [run] returns normally exactly when both tools were started and
    both exited with code 0. *)
Theorem run_returns_iff exec self w :
  fst (run exec self w) = Returned tt
  <-> fst (exec (isort_command self) (files w)) = Exited 0
      /\ fst (exec (black_command self)
                   (snd (exec (isort_command self) (files w)))) = Exited 0.
Proof.
  destruct (run_outcomes exec self w)
    as [(e & H1 & Hr) | [(r1 & e & H1 & H2 & Hr) | (r1 & r2 & H1 & H2 & Hr)]];
    rewrite Hr, H1; cbn [fst]; try rewrite H2.
  - split; [intros H; discriminate H | intros [H _]; discriminate H].
  - split; [intros H; discriminate H | intros [_ H]; discriminate H].
  - destruct (Z.eqb_spec r1 0) as [-> | Hr1]; cbn [andb].
    + destruct (Z.eqb_spec r2 0) as [-> | Hr2].
      * split; auto.
      * split; [intros H; discriminate H |].
        intros [_ H]. injection H as H. contradiction.
    + split; [intros H; discriminate H |].
      intros [H _]. injection H as H. contradiction.
Qed.

Lemma run_returns_iff_witness :
  fst (run (tools 0 0) (initialize_options blank) bare) = Returned tt.
Proof.
  apply (proj2 (run_returns_iff (tools 0 0) (initialize_options blank) bare)).
  split; reflexivity.
Defined.

(** X14: when isort cannot be started, [run] ends with the [OSError] of
    that spawn: black is neither announced nor spawned, and neither PASS
    nor FAIL is logged. *)
Theorem run_isort_missing exec self w e :
  fst (exec (isort_command self) (files w)) = NotStarted e ->
  fst (run exec self w) = Raised (OSError e "isort")
  /\ spawned (snd (run exec self w)) = spawned w ++ [isort_command self]
  /\ log (snd (run exec self w)) = log w ++ [announced (isort_command self)].
Proof.
  intros H1. rewrite (run_isort_not_started_eq exec self w e H1).
  rewrite isort_command_head. repeat split.
Qed.

Lemma run_isort_missing_witness :
  fst (run no_isort (initialize_options blank) bare)
    = Raised (OSError FileNotFoundError "isort").
Proof.
  apply (run_isort_missing no_isort (initialize_options blank) bare
           FileNotFoundError).
  reflexivity.
Defined.

(** X15: when isort has exited and black cannot be started, [run] ends
    with the [OSError] of black's spawn whatever isort's exit code was: a
    failure of isort is then not reported, and neither PASS nor FAIL is
    logged. *)
Theorem run_black_missing exec self w (r1 : Z) e :
  fst (exec (isort_command self) (files w)) = Exited r1 ->
  fst (exec (black_command self) (snd (exec (isort_command self) (files w))))
    = NotStarted e ->
  fst (run exec self w) = Raised (OSError e "black")
  /\ log (snd (run exec self w))
     = log w ++ [announced (isort_command self);
                 announced (black_command self)].
Proof.
  intros H1 H2. rewrite (run_black_not_started exec self w r1 e H1 H2).
  rewrite black_command_head. split; reflexivity.
Qed.

Lemma run_black_missing_witness :
  fst (run no_black (initialize_options blank) bare)
    = Raised (OSError FileNotFoundError "black").
Proof.
  apply (run_black_missing no_black (initialize_options blank) bare 1
           FileNotFoundError); reflexivity.
Defined.

(** X16: whatever the tools do, [run] first logs the isort command line
    and spawns isort; the log and the record of spawns only grow, and no
    list object is touched. *)
Theorem run_frame exec self w :
  heap (snd (run exec self w)) = heap w
  /\ (exists more,
        log (snd (run exec self w))
          = log w ++ announced (isort_command self) :: more)
  /\ (exists more,
        spawned (snd (run exec self w))
          = spawned w ++ isort_command self :: more).
Proof.
  destruct (run_outcomes exec self w)
    as [(e & _ & Hr) | [(r1 & e & _ & _ & Hr) | (r1 & r2 & _ & _ & Hr)]];
    rewrite Hr; cbn [snd heap log spawned]; eauto.
Qed.

(** ** The logged command line *)

Lemma all_chars_of_list p l :
  all_chars p (string_of_list_ascii l) = forallb p l.
Proof.
  induction l as [| c l IH]; [reflexivity |].
  cbn [string_of_list_ascii all_chars forallb]. rewrite IH. reflexivity.
Qed.

Lemma forallb_rev {A : Type} (p : A -> bool) l :
  forallb p (rev l) = forallb p l.
Proof.
  induction l as [| c l IH]; [reflexivity |].
  cbn [rev forallb]. rewrite forallb_app, IH. cbn [forallb].
  rewrite andb_true_r. apply andb_comm.
Qed.

Lemma nonempty_of_list l :
  l <> [] -> Str.nonempty (string_of_list_ascii l) = true.
Proof. destruct l; [congruence | reflexivity]. Qed.

Lemma rev_not_nil {A : Type} (l : list A) : l <> [] -> rev l <> [].
Proof.
  destruct l as [| a l]; [congruence |]. intros _. cbn [rev].
  intros H. apply app_eq_nil in H as [_ H]. discriminate H.
Qed.

Lemma split_aux_nil cur : Str.split_aux cur "" = flushed cur.
Proof. reflexivity. Qed.

Lemma split_aux_space cur c rest :
  Str.isspace c = true ->
  Str.split_aux cur (String c rest) = flushed cur ++ Str.split_aux [] rest.
Proof. intros Hc. cbn [Str.split_aux]. rewrite Hc. reflexivity. Qed.

Lemma split_aux_char cur c rest :
  Str.isspace c = false ->
  Str.split_aux cur (String c rest) = Str.split_aux (c :: cur) rest.
Proof. intros Hc. cbn [Str.split_aux]. rewrite Hc. reflexivity. Qed.

Lemma split_aux_word x cur rest :
  all_chars (fun c => negb (Str.isspace c)) x = true ->
  Str.split_aux cur (x ++ rest)
    = Str.split_aux (rev (list_ascii_of_string x) ++ cur) rest.
Proof.
  revert cur. induction x as [| c x IH]; intros cur Hx; [reflexivity |].
  cbn [all_chars] in Hx. apply andb_true_iff in Hx as [Hc Hx].
  apply negb_true_iff in Hc.
  rewrite append_cons, (split_aux_char _ _ _ Hc), (IH (c :: cur) Hx).
  cbn [list_ascii_of_string rev]. rewrite <- app_assoc. reflexivity.
Qed.

Lemma flushed_word x :
  word x = true -> flushed (rev (list_ascii_of_string x) ++ []) = [x].
Proof.
  unfold word. intros H. apply andb_true_iff in H as [Hn _].
  rewrite app_nil_r. destruct x as [| c x]; [discriminate Hn |].
  unfold flushed.
  destruct (rev (list_ascii_of_string (String c x))) as [| a l] eqn:E.
  - exfalso. revert E. apply rev_not_nil. discriminate.
  - rewrite <- E, rev_involutive, string_of_list_ascii_of_string.
    reflexivity.
Qed.

(** Joining words with one space and splitting again gives the words
    back. *)
Lemma split_join ws :
  Forall (fun x => word x = true) ws -> Str.split (Str.join " " ws) = ws.
Proof.
  unfold Str.split. induction 1 as [| x ws Hx Hws IH]; [reflexivity |].
  assert (Hchars : all_chars (fun c => negb (Str.isspace c)) x = true)
    by (unfold word in Hx; apply andb_true_iff in Hx as [_ Hx]; exact Hx).
  destruct ws as [| y ws].
  - cbn [Str.join]. rewrite <- (append_nil_r x) at 1.
    rewrite (split_aux_word x [] "" Hchars), split_aux_nil.
    apply flushed_word, Hx.
  - change (Str.join " " (x :: y :: ws))
      with (x ++ String " " (Str.join " " (y :: ws)))%string.
    rewrite (split_aux_word x [] _ Hchars).
    rewrite (split_aux_space _ " " _ eq_refl).
    rewrite (flushed_word x Hx), IH. reflexivity.
Qed.

Lemma split_aux_words s cur :
  forallb (fun c => negb (Str.isspace c)) cur = true ->
  Forall (fun x => word x = true) (Str.split_aux cur s).
Proof.
  assert (Hflush : forall cur,
            forallb (fun c => negb (Str.isspace c)) cur = true ->
            Forall (fun x => word x = true) (flushed cur)).
  { intros [| a l] Hl; [constructor |]. unfold flushed.
    constructor; [| constructor]. unfold word.
    rewrite nonempty_of_list by (apply rev_not_nil; discriminate).
    rewrite all_chars_of_list, forallb_rev. exact Hl. }
  revert cur. induction s as [| c s IH]; intros cur Hcur.
  - rewrite split_aux_nil. apply Hflush, Hcur.
  - destruct (Str.isspace c) eqn:Hc.
    + rewrite (split_aux_space _ _ _ Hc). apply Forall_app. split.
      * apply Hflush, Hcur.
      * apply IH. reflexivity.
    + rewrite (split_aux_char _ _ _ Hc). apply IH.
      cbn [forallb]. rewrite Hc, Hcur. reflexivity.
Qed.

(** X17: the command line that [__call_checker] logs, words joined by
    single spaces, splits back into exactly the argument vector it
    spawns, provided the scope is a non-empty string without white
    space.  This holds for any base command string. *)
Theorem logged_command_splits_back base scope check :
  word scope = true ->
  Str.split (Str.join " " (checker_command (Str.split base) scope check))
    = checker_command (Str.split base) scope check.
Proof.
  intros Hscope. apply split_join. unfold checker_command.
  assert (Hbase : Forall (fun x => word x = true) (Str.split base ++ [scope])).
  { apply Forall_app. split.
    - apply split_aux_words. reflexivity.
    - constructor; [exact Hscope | constructor]. }
  destruct check; [| exact Hbase].
  apply Forall_app. split; [exact Hbase |].
  repeat constructor.
Qed.

Lemma logged_command_splits_back_witness :
  Str.split
    "isort --multi-line=3 --trailing-comma --force-grid-wrap=0 --use-parentheses --line-width=119 -rc -ws nemo --check --diff"
    = isort_command (mkStyleCommand "nemo" (PyStr "")).
Proof.
  apply (logged_command_splits_back __ISORT_BASE "nemo" true).
  reflexivity.
Defined.
